(** * Client11: the TAXII 1.1 client of cabby (src/cabby/client11.py)

    A shallow embedding of [Client11.push], [Client11.poll] and
    [Client11.fulfilment].  The two polling operations are Python generators:
    they are embedded as explicit resumable states together with a [next]
    function, so that what happens at call time, at each iteration step and
    between two steps can be told apart. *)

From Stdlib Require Import List String ZArith NArith Bool Arith Lia DecimalString.
Import ListNotations.
Open Scope string_scope.
Open Scope list_scope.

Set Implicit Arguments.

(** ** Python values the client handles *)

(** Timestamps are opaque to the client: it only tests them against [None]. *)
Definition datetime := Z.

(** Truthiness of an optional string ([if subscription_id:]): [None] and the
    empty string are both false. *)
Definition truthy_str (s : option string) : bool :=
  match s with
  | None => false
  | Some EmptyString => false
  | Some (String _ _) => true
  end.

(** Truthiness of an optional list ([if collections_names:]). *)
Definition truthy_list {A} (l : option (list A)) : bool :=
  match l with
  | None | Some [] => false
  | Some (_ :: _) => true
  end.

(** ** libtaxii constants and messages *)

Inductive service_type := SVC_DISCOVERY | SVC_COLLECTION_MANAGEMENT | SVC_POLL | SVC_INBOX.

Inductive response_type := RT_FULL | RT_COUNT_ONLY.

Definition ST_SUCCESS : string := "SUCCESS".

Definition service_type_eqb (a b : service_type) : bool :=
  match a, b with
  | SVC_DISCOVERY, SVC_DISCOVERY
  | SVC_COLLECTION_MANAGEMENT, SVC_COLLECTION_MANAGEMENT
  | SVC_POLL, SVC_POLL
  | SVC_INBOX, SVC_INBOX => true
  | _, _ => false
  end.

(** A content binding as the caller passes it: a plain string or a
    [cabby.entities.ContentBinding]. *)
Inductive binding_arg :=
| BindingStr (id : string)
| BindingEntity (id : string) (subtypes : list string).

(** [tm11.ContentBinding] *)
Record tm11_ContentBinding := {
  binding_id : string;
  subtype_ids : list string
}.

(** [tm11.ContentBlock], as built by [push] and as found in a response.  A
    block received from a server may lack its binding or its timestamp. *)
Record tm11_ContentBlock := {
  content : string;
  content_binding : option tm11_ContentBinding;
  timestamp_label : option datetime;
  signature : option string
}.

(** [cabby.entities.InboxService] *)
Record InboxService := {
  protocol : string;
  address : string;
  message_bindings : list string
}.

(** The value of [delivery_message_binding]: the first message binding of the
    inbox service, or the empty list [[]] the code puts in its place. *)
Inductive delivery_binding :=
| FirstBinding (b : string)
| NoBindings.

(** [tm11.DeliveryParameters] *)
Record DeliveryParameters := {
  inbox_protocol : string;
  inbox_address : string;
  delivery_message_binding : delivery_binding
}.

(** The keyword dictionary [poll_params] handed to
    [tm11.PollRequest.PollParameters]; [None] is a key that was not set. *)
Record PollParameters := {
  pp_content_bindings : option (list tm11_ContentBinding);
  pp_delivery_parameters : option DeliveryParameters;
  pp_allow_asynch : option bool;
  pp_response_type : option response_type
}.

(** The keyword dictionary [data] handed to [tm11.PollRequest]. *)
Record PollRequest := {
  pr_message_id : string;
  pr_collection_name : string;
  pr_exclusive_begin_timestamp_label : option datetime;
  pr_inclusive_end_timestamp_label : option datetime;
  pr_subscription_id : option string;
  pr_poll_parameters : option PollParameters
}.

(** Setting one more key of a keyword dictionary. *)
Definition set_delivery_parameters (d : DeliveryParameters) (p : PollParameters)
    : PollParameters :=
  {| pp_content_bindings := pp_content_bindings p;
     pp_delivery_parameters := Some d;
     pp_allow_asynch := pp_allow_asynch p;
     pp_response_type := pp_response_type p |}.

Definition set_allow_asynch (b : bool) (p : PollParameters) : PollParameters :=
  {| pp_content_bindings := pp_content_bindings p;
     pp_delivery_parameters := pp_delivery_parameters p;
     pp_allow_asynch := Some b;
     pp_response_type := pp_response_type p |}.

Definition set_response_type (t : response_type) (p : PollParameters) : PollParameters :=
  {| pp_content_bindings := pp_content_bindings p;
     pp_delivery_parameters := pp_delivery_parameters p;
     pp_allow_asynch := pp_allow_asynch p;
     pp_response_type := Some t |}.

Definition set_subscription_id (s : option string) (r : PollRequest) : PollRequest :=
  {| pr_message_id := pr_message_id r;
     pr_collection_name := pr_collection_name r;
     pr_exclusive_begin_timestamp_label := pr_exclusive_begin_timestamp_label r;
     pr_inclusive_end_timestamp_label := pr_inclusive_end_timestamp_label r;
     pr_subscription_id := s;
     pr_poll_parameters := pr_poll_parameters r |}.

Definition set_poll_parameters (p : PollParameters) (r : PollRequest) : PollRequest :=
  {| pr_message_id := pr_message_id r;
     pr_collection_name := pr_collection_name r;
     pr_exclusive_begin_timestamp_label := pr_exclusive_begin_timestamp_label r;
     pr_inclusive_end_timestamp_label := pr_inclusive_end_timestamp_label r;
     pr_subscription_id := pr_subscription_id r;
     pr_poll_parameters := Some p |}.

(** [tm11.PollFulfillmentRequest] *)
Record PollFulfillmentRequest := {
  fr_message_id : string;
  fr_collection_name : string;
  fr_result_id : string;
  fr_result_part_number : Z
}.

(** [tm11.InboxMessage] *)
Record InboxMessage := {
  im_message_id : string;
  im_content_blocks : list tm11_ContentBlock;
  im_destination_collection_names : list string
}.

Inductive request :=
| ReqPoll (r : PollRequest)
| ReqFulfillment (r : PollFulfillmentRequest)
| ReqInbox (m : InboxMessage).

(** [tm11.PollResponse]: the fields the client reads. *)
Record PollResponse := {
  content_blocks : list tm11_ContentBlock;
  more : bool;
  result_id : string;
  result_part_number : Z
}.

(** [tm11.StatusMessage] *)
Record StatusMessage := {
  status_type : string;
  status_detail : option string
}.

(** What [_execute_request] hands back. *)
Inductive message :=
| MsgPollResponse (r : PollResponse)
| MsgStatus (s : StatusMessage).

(** ** Exceptions and results *)

Inductive exn :=
| ValueError (msg : string)
| UnsuccessfulStatusError (status : string) (detail : option string)
| ServiceNotFoundError (kind : service_type)
| AmbiguousServicesError (kind : service_type) (candidates : list string)
| NoURIProvidedError
| TransportError (msg : string)
| ConversionError (field : string)
| AttributeError (attr : string).

Inductive result (A : Type) :=
| Ok (a : A)
| Raise (e : exn).
Arguments Ok {A} a.
Arguments Raise {A} e.

(** ** Domain entities (cabby.entities) *)

Record ContentBlock := {
  cb_content : string;
  cb_binding : tm11_ContentBinding;
  cb_timestamp : datetime;
  cb_signature : option string
}.

(** ** The abstract client

    [Client11] extends [AbstractClient], which owns the identifier generator
    and the request dispatcher.  [W] is everything these two may read or
    change: the session, the identifier source, the network. *)

Class AbstractClient (W : Type) := {
  _generate_id : W -> string * W;
  _execute_request : request -> option string -> service_type -> W -> result message * W
}.

(** How a consumer is left after pulling blocks: with the generator
    suspended at a [yield], at the end of the sequence, or with an
    exception. *)
Inductive ending :=
| Suspended
| Exhausted
| Failed (e : exn).

(** What one [next()] on a generator gives the consumer. *)
Inductive outcome :=
| Yielded (b : ContentBlock)
| Raised (e : exn)
| StopIteration.

(** Arguments of [poll]. *)
Record poll_args := {
  collection_name : string;
  begin_date : option datetime;
  end_date : option datetime;
  count_only : bool;
  subscription_id : option string;
  inbox_service : option InboxService;
  content_bindings : option (list binding_arg);
  uri : option string
}.

(** [response.content_blocks]: a status message has no such attribute. *)
Definition get_content_blocks (response : message) : result (list tm11_ContentBlock) :=
  match response with
  | MsgPollResponse r => Ok (content_blocks r)
  | MsgStatus _ => Raise (AttributeError "content_blocks")
  end.

(** The generator object of [fulfilment]. *)
Inductive fulfilment_gen :=
| FulCreated (collection_name result_id : string) (part_number : Z) (uri : option string)
| FulSuspended (rest : list tm11_ContentBlock)
| FulFinished.

(** The generator object of [poll].  Once the first request is answered the
    body only uses [collection_name], [uri] and [response]. *)
Inductive poll_gen :=
| PollCreated (a : poll_args)
| PollFirst (collection_name : string) (uri : option string)
            (response : PollResponse) (rest : list tm11_ContentBlock)
| PollMore (collection_name : string) (uri : option string)
           (response : PollResponse) (inner : fulfilment_gen)
| PollFinished.

Section Client11.

Context {W : Type} {client : AbstractClient W}.

(** Helpers of [cabby.utils] and [cabby.converters], which the client
    imports. *)
Variable pack_content_binding : binding_arg -> tm11_ContentBinding.
Variable pack_content_bindings :
  option (list binding_arg) -> option (list tm11_ContentBinding).
Variable get_utc_now : datetime.
Variable to_content_block_entity : tm11_ContentBlock -> result ContentBlock.

(** *** push *)

Definition push (content : string) (content_binding : binding_arg)
    (collections_names : option (list string)) (timestamp : option datetime)
    (uri : option string) (w : W) : result unit * W :=
  let content_block :=
    {| content := content;
       content_binding := Some (pack_content_binding content_binding);
       timestamp_label :=
         Some (match timestamp with Some t => t | None => get_utc_now end);
       signature := None |} in
  let (message_id, w1) := _generate_id w in
  let destination_collection_names :=
    if truthy_list collections_names
    then match collections_names with Some names => [] ++ names | None => [] end
    else [] in
  let inbox_message :=
    {| im_message_id := message_id;
       im_content_blocks := [content_block];
       im_destination_collection_names := destination_collection_names |} in
  match _execute_request (ReqInbox inbox_message) uri SVC_INBOX w1 with
  | (Raise e, w2) => (Raise e, w2)
  | (Ok _, w2) => (Ok tt, w2)
  end.

(** *** poll: the request *)

(** The dictionary [data] of [poll] once it is complete: the four entries it
    starts with, then either the subscription id or the poll parameters.
    [poll_params] starts with the content bindings; the inbox service and
    the count-only flag each add their entries. *)
Definition poll_request (message_id : string) (a : poll_args) : PollRequest :=
  let data :=
    {| pr_message_id := message_id;
       pr_collection_name := collection_name a;
       pr_exclusive_begin_timestamp_label := begin_date a;
       pr_inclusive_end_timestamp_label := end_date a;
       pr_subscription_id := None;
       pr_poll_parameters := None |} in
  if truthy_str (subscription_id a) then
    set_subscription_id (subscription_id a) data
  else
    let poll_params :=
      {| pp_content_bindings := pack_content_bindings (content_bindings a);
         pp_delivery_parameters := None;
         pp_allow_asynch := None;
         pp_response_type := None |} in
    let poll_params :=
      match inbox_service a with
      | Some svc =>
          let message_bindings :=
            match message_bindings svc with
            | b :: _ => FirstBinding b
            | [] => NoBindings
            end in
          set_allow_asynch true
            (set_delivery_parameters
               {| inbox_protocol := protocol svc;
                  inbox_address := address svc;
                  delivery_message_binding := message_bindings |}
               poll_params)
      | None => poll_params
      end in
    let poll_params :=
      if count_only a then set_response_type RT_COUNT_ONLY poll_params
      else poll_params in
    set_poll_parameters poll_params data.

(** *** fulfilment *)

(** Calling [fulfilment] only builds the generator object. *)
Definition fulfilment (collection_name result_id : string) (part_number : Z)
    (uri : option string) (w : W) : fulfilment_gen * W :=
  (FulCreated collection_name result_id part_number uri, w).

(** One step of [for block in imap(to_content_block_entity, blocks): yield block]
    inside [fulfilment]. *)
Definition fulfilment_blocks (blocks : list tm11_ContentBlock) : outcome * fulfilment_gen :=
  match blocks with
  | [] => (StopIteration, FulFinished)
  | b :: rest =>
      match to_content_block_entity b with
      | Ok block => (Yielded block, FulSuspended rest)
      | Raise e => (Raised e, FulFinished)
      end
  end.

Definition fulfilment_next (g : fulfilment_gen) (w : W) : outcome * fulfilment_gen * W :=
  match g with
  | FulCreated collection_name result_id part_number uri =>
      let (message_id, w1) := _generate_id w in
      let request :=
        {| fr_message_id := message_id;
           fr_collection_name := collection_name;
           fr_result_id := result_id;
           fr_result_part_number := part_number |} in
      match _execute_request (ReqFulfillment request) uri SVC_POLL w1 with
      | (Raise e, w2) => (Raised e, FulFinished, w2)
      | (Ok response, w2) =>
          match get_content_blocks response with
          | Raise e => (Raised e, FulFinished, w2)
          | Ok blocks => (fulfilment_blocks blocks, w2)
          end
      end
  | FulSuspended rest => (fulfilment_blocks rest, w)
  | FulFinished => (StopIteration, FulFinished, w)
  end.

(** *** poll *)

(** Calling [poll] only builds the generator object. *)
Definition poll (a : poll_args) (w : W) : poll_gen * W := (PollCreated a, w).

(** The [while response.more:] loop, entered at its test.  Each turn makes a
    new [fulfilment] generator from the unchanged [response] and iterates
    it; a turn whose generator yields nothing goes round again, so the
    function takes the number of turns it may make. *)
Fixpoint poll_while (fuel : nat) (collection_name : string) (uri : option string)
    (response : PollResponse) (w : W) : option (outcome * poll_gen * W) :=
  match fuel with
  | O => None
  | S fuel' =>
      if more response then
        let part := (result_part_number response + 1)%Z in
        let (inner, w0) := fulfilment collection_name (result_id response) part uri w in
        match fulfilment_next inner w0 with
        | (Yielded block, inner', w1) =>
            Some (Yielded block, PollMore collection_name uri response inner', w1)
        | (Raised e, _, w1) => Some (Raised e, PollFinished, w1)
        | (StopIteration, _, w1) => poll_while fuel' collection_name uri response w1
        end
      else Some (StopIteration, PollFinished, w)
  end.

(** The first [for] loop, over the blocks of the poll response. *)
Definition poll_first (fuel : nat) (collection_name : string) (uri : option string)
    (response : PollResponse) (blocks : list tm11_ContentBlock) (w : W)
    : option (outcome * poll_gen * W) :=
  match blocks with
  | b :: rest =>
      match to_content_block_entity b with
      | Ok block => Some (Yielded block, PollFirst collection_name uri response rest, w)
      | Raise e => Some (Raised e, PollFinished, w)
      end
  | [] => poll_while fuel collection_name uri response w
  end.

Definition poll_next (fuel : nat) (g : poll_gen) (w : W) : option (outcome * poll_gen * W) :=
  match g with
  | PollCreated a =>
      let (message_id, w1) := _generate_id w in
      let request := poll_request message_id a in
      match _execute_request (ReqPoll request) (uri a) SVC_POLL w1 with
      | (Raise e, w2) => Some (Raised e, PollFinished, w2)
      | (Ok response, w2) =>
          match response with
          | MsgStatus _ => Some (Raised (AttributeError "content_blocks"), PollFinished, w2)
          | MsgPollResponse r =>
              poll_first fuel (collection_name a) (uri a) r (content_blocks r) w2
          end
      end
  | PollFirst collection_name uri response rest =>
      poll_first fuel collection_name uri response rest w
  | PollMore collection_name uri response inner =>
      match fulfilment_next inner w with
      | (Yielded block, inner', w1) =>
          Some (Yielded block, PollMore collection_name uri response inner', w1)
      | (Raised e, _, w1) => Some (Raised e, PollFinished, w1)
      | (StopIteration, _, w1) => poll_while fuel collection_name uri response w1
      end
  | PollFinished => Some (StopIteration, PollFinished, w)
  end.

(** *** Consumers

    A consumer pulls at most [n] blocks and stops at the first exception or
    at the end of the sequence, as [itertools.islice(gen, n)] does. *)

Fixpoint fulfilment_take (n : nat) (g : fulfilment_gen) (w : W)
    : list ContentBlock * ending * fulfilment_gen * W :=
  match n with
  | O => ([], Suspended, g, w)
  | S n' =>
      match fulfilment_next g w with
      | (Yielded block, g1, w1) =>
          match fulfilment_take n' g1 w1 with
          | (blocks, fin, g2, w2) => (block :: blocks, fin, g2, w2)
          end
      | (Raised e, g1, w1) => ([], Failed e, g1, w1)
      | (StopIteration, g1, w1) => ([], Exhausted, g1, w1)
      end
  end.

Fixpoint poll_take (fuel n : nat) (g : poll_gen) (w : W)
    : option (list ContentBlock * ending * poll_gen * W) :=
  match n with
  | O => Some ([], Suspended, g, w)
  | S n' =>
      match poll_next fuel g w with
      | None => None
      | Some (Yielded block, g1, w1) =>
          match poll_take fuel n' g1 w1 with
          | Some (blocks, fin, g2, w2) => Some (block :: blocks, fin, g2, w2)
          | None => None
          end
      | Some (Raised e, g1, w1) => Some ([], Failed e, g1, w1)
      | Some (StopIteration, g1, w1) => Some ([], Exhausted, g1, w1)
      end
  end.

(** The entities of the blocks of a response, up to the first block that
    does not convert. *)
Fixpoint converted (blocks : list tm11_ContentBlock) : list ContentBlock :=
  match blocks with
  | [] => []
  | b :: rest =>
      match to_content_block_entity b with
      | Ok block => block :: converted rest
      | Raise _ => []
      end
  end.

Definition entities_of (reply : result message) : list ContentBlock :=
  match reply with
  | Ok (MsgPollResponse r) => converted (content_blocks r)
  | _ => []
  end.

(** Calling the operation and pulling at most [n] blocks from what it
    returns. *)
Definition fulfilment_run (n : nat) (collection_name result_id : string)
    (part_number : Z) (uri : option string) (w : W)
    : list ContentBlock * ending * fulfilment_gen * W :=
  let (g, w0) := fulfilment collection_name result_id part_number uri w in
  fulfilment_take n g w0.

Definition poll_run (fuel n : nat) (a : poll_args) (w : W)
    : option (list ContentBlock * ending * poll_gen * W) :=
  let (g, w0) := poll a w in
  poll_take fuel n g w0.

(** How a consumer asking for [n] blocks of a response alone is left: with
    the generator suspended, at the end of the blocks, or at a block that
    does not convert. *)
Fixpoint blocks_ending (n : nat) (blocks : list tm11_ContentBlock) : ending :=
  match n with
  | O => Suspended
  | S n' =>
      match blocks with
      | [] => Exhausted
      | b :: rest =>
          match to_content_block_entity b with
          | Ok _ => blocks_ending n' rest
          | Raise e => Failed e
          end
      end
  end.

Definition reply_ending (n : nat) (reply : result message) : ending :=
  match reply with
  | Raise e => Failed e
  | Ok response =>
      match get_content_blocks response with
      | Raise e => Failed e
      | Ok blocks => blocks_ending n blocks
      end
  end.

(** *** Exchanges and the blocks they account for *)

(** The entities [es] are those of all the blocks of the reply of exchange
    [x], in the order of the reply. *)
Definition yields_all (x : request * result message) (es : list ContentBlock) : Prop :=
  exists r, snd x = Ok (MsgPollResponse r) /\
            map to_content_block_entity (content_blocks r) = map Ok es.

(** The entities [es] are those of the first blocks of the reply of [x]. *)
Definition yields_first (x : request * result message) (es : list ContentBlock) : Prop :=
  exists rest, entities_of (snd x) = es ++ rest.

(** A consumer that holds [blocks] and was left at [fin], after the
    exchanges [xs]: every exchange but the last has had all its blocks
    yielded, the last one its first blocks, and if the generator is
    suspended the last exchange has yielded at least one block. *)
Definition served (xs : list (request * result message)) (blocks : list ContentBlock)
    (fin : ending) : Prop :=
  exists earlier last ess es,
    xs = earlier ++ [last] /\
    Forall2 yields_all earlier ess /\
    yields_first last es /\
    blocks = List.concat ess ++ es /\
    (fin = Suspended -> es <> []).

(** The generator [g] is suspended at a [yield], the consumer holding
    [blocks] after the exchanges [xs]. *)
Definition between_yields (g : poll_gen) (xs : list (request * result message))
    (blocks : list ContentBlock) : Prop :=
  exists earlier q r ess pre rest es,
    xs = earlier ++ [(q, Ok (MsgPollResponse r))] /\
    Forall2 yields_all earlier ess /\
    content_blocks r = pre ++ rest /\
    map to_content_block_entity pre = map Ok es /\
    es <> [] /\
    blocks = List.concat ess ++ es /\
    exists cn u, g = PollFirst cn u r rest \/
                 exists r0, g = PollMore cn u r0 (FulSuspended rest).

(** What a step leaves behind, the consumer holding [blocks] before it. *)
Definition step_served (o : outcome) (g : poll_gen)
    (xs : list (request * result message)) (blocks : list ContentBlock) : Prop :=
  match o with
  | Yielded b => between_yields g xs (blocks ++ [b])
  | Raised e => served xs blocks (Failed e)
  | StopIteration => served xs blocks Exhausted
  end.

(** *** Failures on a later part *)

(** The fulfilment request the loop makes, with identifier [m], for the
    response [r] it looks at. *)
Definition loop_request (cn : string) (r : PollResponse) (m : string) : request :=
  ReqFulfillment {| fr_message_id := m;
                    fr_collection_name := cn;
                    fr_result_id := result_id r;
                    fr_result_part_number := result_part_number r + 1 |}.



End Client11.

(** ** A client that records what the operations ask of it

    Every call of [_generate_id] and of [_execute_request] is appended, with
    its result, to a log kept next to the state of the client underneath. *)

Inductive event :=
| EvId (message_id : string)
| EvRequest (r : request) (uri : option string) (service : service_type)
            (reply : result message).

#[export] Instance Traced (W : Type) (client : AbstractClient W)
    : AbstractClient (list event * W) := {
  _generate_id tw :=
    let (message_id, w1) := _generate_id (snd tw) in
    (message_id, (fst tw ++ [EvId message_id], w1));
  _execute_request r uri service tw :=
    let (reply, w1) := _execute_request r uri service (snd tw) in
    (reply, (fst tw ++ [EvRequest r uri service reply], w1))
}.

(** The request/reply exchanges of a log, oldest first. *)
Fixpoint exchanges (tr : list event) : list (request * result message) :=
  match tr with
  | [] => []
  | EvId _ :: tr' => exchanges tr'
  | EvRequest r _ _ reply :: tr' => (r, reply) :: exchanges tr'
  end.

(** ** The session behind the abstract client

    [AbstractClient] itself (cabby/abstract.py) and the converters
    (cabby/converters.py) are not part of the sources at hand.  What follows
    gives them the behaviour their specification describes, to have a client
    the operations can be run on. *)

(** A discovered endpoint. *)
Record ServiceDescriptor := {
  sd_kind : service_type;
  sd_address : string;
  sd_message_bindings : list string;
  sd_protocol_bindings : list string
}.

(** The state of one client instance: the descriptors it knows, the base
    address discovery may use, the identifier counter, and the messages it
    has handed to the transport so far (oldest first). *)
Record session := {
  descriptors : list ServiceDescriptor;
  discovery_address : option string;
  id_counter : N;
  sent : list (string * request)
}.

Section Session.

(** The collaborators of the core: the transport together with the message
    codec (whose answer may depend on what was sent before), the discovery
    trigger, and the check of a caller-supplied address. *)
Variable transport_send : list (string * request) -> string -> request -> result message.
Variable discovery_trigger : string -> list ServiceDescriptor.
Variable supported_uri : string -> bool.

(** Modelled from the spec: the Identifier Generator of [AbstractClient]
    ([_generate_id] is not in the sources at hand).  Each call gives a new
    value, here the decimal form of a counter kept by the session. *)
Definition next_id (s : session) : string * session :=
  (NilZero.string_of_uint (N.to_uint (id_counter s)),
   {| descriptors := descriptors s;
      discovery_address := discovery_address s;
      id_counter := N.succ (id_counter s);
      sent := sent s |}).

(** Modelled from the spec: the descriptors of a kind among those known. *)
Definition candidates (kind : service_type) (ds : list ServiceDescriptor)
    : list ServiceDescriptor :=
  filter (fun d => service_type_eqb (sd_kind d) kind) ds.

(** Modelled from the spec: the choice among the descriptors of a kind: none
    is a failure, one gives its address, several are ambiguous and all their
    addresses are reported. *)
Definition pick (kind : service_type) (ds : list ServiceDescriptor) : result string :=
  match candidates kind ds with
  | [] => Raise (ServiceNotFoundError kind)
  | [d] => Ok (sd_address d)
  | found => Raise (AmbiguousServicesError kind (map sd_address found))
  end.

(** Modelled from the spec: the Service Resolver of [AbstractClient] (not in
    the sources at hand).  An explicit address is only validated; otherwise
    the known descriptors of the kind decide, after one discovery when there
    is none.  [ValueError] and [NoURIProvidedError] are the exceptions the
    docstrings of the operations name for the spec's InvalidAddress and
    NoAddressProvided. *)
Definition resolve (kind : service_type) (explicit_address : option string)
    (s : session) : result string * session :=
  match explicit_address with
  | Some a =>
      if supported_uri a then (Ok a, s) else (Raise (ValueError a), s)
  | None =>
      match candidates kind (descriptors s) with
      | [] =>
          match discovery_address s with
          | None => (Raise NoURIProvidedError, s)
          | Some base =>
              let s' :=
                {| descriptors := descriptors s ++ discovery_trigger base;
                   discovery_address := discovery_address s;
                   id_counter := id_counter s;
                   sent := sent s |} in
              (pick kind (descriptors s'), s')
          end
      | _ => (pick kind (descriptors s), s)
      end
  end.

(** Modelled from the spec: the Request Dispatcher of [AbstractClient]
    ([_execute_request] is not in the sources at hand).  It resolves the
    address, makes one exchange over the transport, raises on a status
    message that is not a success and returns any other response as it is.
    The messages of this client carry their identifier when they reach the
    dispatcher. *)
Definition execute (r : request) (uri : option string) (kind : service_type)
    (s : session) : result message * session :=
  match resolve kind uri s with
  | (Raise e, s1) => (Raise e, s1)
  | (Ok target, s1) =>
      let s2 :=
        {| descriptors := descriptors s1;
           discovery_address := discovery_address s1;
           id_counter := id_counter s1;
           sent := sent s1 ++ [(target, r)] |} in
      match transport_send (sent s1) target r with
      | Raise e => (Raise e, s2)
      | Ok (MsgStatus st) =>
          if String.eqb (status_type st) ST_SUCCESS
          then (Ok (MsgStatus st), s2)
          else (Raise (UnsuccessfulStatusError (status_type st) (status_detail st)), s2)
      | Ok response => (Ok response, s2)
      end
  end.

#[export] Instance SessionClient : AbstractClient session := {
  _generate_id := next_id;
  _execute_request := execute
}.

End Session.

(** Modelled from the spec: the content-block conversion of the Entity
    Conversion Layer ([to_content_block_entity] is not in the sources at
    hand).  Payload, binding and timestamp pass through as they are; a block
    without one of its required fields fails, naming the field. *)
Definition convert_block (b : tm11_ContentBlock) : result ContentBlock :=
  match content_binding b, timestamp_label b with
  | None, _ => Raise (ConversionError "content_binding")
  | Some _, None => Raise (ConversionError "timestamp_label")
  | Some binding, Some stamp =>
      Ok {| cb_content := content b;
            cb_binding := binding;
            cb_timestamp := stamp;
            cb_signature := signature b |}
  end.

(** Modelled from the spec: packing of the content bindings a caller passes
    ([pack_content_binding] and [pack_content_bindings] of cabby/utils.py are
    not in the sources at hand): an identifier, with its subtypes if any. *)
Definition pack_binding (b : binding_arg) : tm11_ContentBinding :=
  match b with
  | BindingStr id => {| binding_id := id; subtype_ids := [] |}
  | BindingEntity id subtypes => {| binding_id := id; subtype_ids := subtypes |}
  end.

Definition pack_bindings (bs : option (list binding_arg))
    : option (list tm11_ContentBinding) :=
  match bs with
  | None => None
  | Some l => Some (map pack_binding l)
  end.

(** ** A simulated server

    A session that knows one poll service and one inbox service, and a
    transport that answers a poll request with part 1 of result set ["r1"]
    (two blocks, more to come), a fulfilment request for part [k] of ["r1"]
    with the part the server holds for [k], and an inbox message with a
    success status. *)

Module Simulation.

Definition wire (payload : string) : tm11_ContentBlock :=
  {| content := payload;
     content_binding := Some {| binding_id := "urn:test"; subtype_ids := [] |};
     timestamp_label := Some 0%Z;
     signature := None |}.

Definition block (payload : string) : ContentBlock :=
  {| cb_content := payload;
     cb_binding := {| binding_id := "urn:test"; subtype_ids := [] |};
     cb_timestamp := 0%Z;
     cb_signature := None |}.

Definition part1 : PollResponse :=
  {| content_blocks := [wire "a"; wire "b"];
     more := true;
     result_id := "r1";
     result_part_number := 1 |}.

Definition success : StatusMessage :=
  {| status_type := ST_SUCCESS; status_detail := None |}.

(** The transport, given what the server holds for the later parts. *)
Definition transport (later_part : Z -> result message)
    (history : list (string * request)) (target : string) (r : request)
    : result message :=
  match r with
  | ReqPoll _ => Ok (MsgPollResponse part1)
  | ReqFulfillment f =>
      if String.eqb (fr_result_id f) "r1"
      then later_part (fr_result_part_number f)
      else Raise (TransportError "unknown result id")
  | ReqInbox _ => Ok (MsgStatus success)
  end.

Definition no_discovery (base : string) : list ServiceDescriptor := [].

Definition http_uri (a : string) : bool :=
  orb (String.prefix "http://" a) (String.prefix "https://" a).

Definition client (later_part : Z -> result message) : AbstractClient session :=
  SessionClient (transport later_part) no_discovery http_uri.

Definition start : session :=
  {| descriptors :=
       [ {| sd_kind := SVC_POLL; sd_address := "https://a/poll";
            sd_message_bindings := []; sd_protocol_bindings := [] |};
         {| sd_kind := SVC_INBOX; sd_address := "https://a/inbox";
            sd_message_bindings := []; sd_protocol_bindings := [] |} ];
     discovery_address := None;
     id_counter := 0;
     sent := [] |}.

Definition feed (subscription : option string) (begin_ : option datetime) : poll_args :=
  {| collection_name := "feed-1";
     begin_date := begin_;
     end_date := None;
     count_only := false;
     subscription_id := subscription;
     inbox_service := None;
     content_bindings := None;
     uri := None |}.

(** Part 2 is the last part: one block, no more to come. *)
Definition two_parts (part : Z) : result message :=
  if (part =? 2)%Z
  then Ok (MsgPollResponse
             {| content_blocks := [wire "c"];
                more := false;
                result_id := "r1";
                result_part_number := 2 |})
  else Raise (TransportError "no such part").

(** Every part [k >= 2] holds one block named after it, and more follow. *)
Definition endless (part : Z) : result message :=
  Ok (MsgPollResponse
        {| content_blocks := [wire (if (part =? 2)%Z then "c" else "d")];
           more := true;
           result_id := "r1";
           result_part_number := part |}).


(** The session after [k] identifiers and the messages [l]. *)
Definition session_at (k : N) (l : list (string * request)) : session :=
  {| descriptors := descriptors start;
     discovery_address := None;
     id_counter := k;
     sent := l |}.

(** The part numbers asked for by the fulfilment requests among the
    messages sent, oldest first. *)
Fixpoint requested_parts (l : list (string * request)) : list Z :=
  match l with
  | [] => []
  | (_, ReqFulfillment f) :: l' => fr_result_part_number f :: requested_parts l'
  | _ :: l' => requested_parts l'
  end.

(** The generator of a poll of ["feed-1"] in the [while] loop, all blocks
    received so far yielded. *)
Definition looping : poll_gen :=
  PollMore "feed-1" None part1 (FulSuspended []).

End Simulation.

(** ** The operations of the collection management and discovery services

    [_discovery_request], the four subscription operations, [subscribe] and
    [get_collections].  They use the same two methods of [AbstractClient];
    [_execute_request] is taken here at the message classes of these
    services, and [_generate_id] is the one above. *)

Module Services.

(** The actions of a subscription request (libtaxii constants). *)
Inductive action := ACT_SUBSCRIBE | ACT_STATUS | ACT_PAUSE | ACT_RESUME | ACT_UNSUBSCRIBE.

(** [tm11.SubscriptionParameters] *)
Record SubscriptionParameters := {
  sp_response_type : response_type;
  sp_content_bindings : option (list tm11_ContentBinding)
}.

(** [tm11.PushParameters] *)
Record PushParameters := {
  push_inbox_protocol : string;
  push_inbox_address : string;
  push_delivery_message_binding : string
}.

(** The keyword dictionary handed to [tm11.ManageCollectionSubscriptionRequest];
    [None] is a key that was not set, or set to [None]. *)
Record ManageCollectionSubscriptionRequest := {
  mr_message_id : string;
  mr_action : action;
  mr_collection_name : string;
  mr_subscription_id : option string;
  mr_subscription_parameters : option SubscriptionParameters;
  mr_push_parameters : option PushParameters
}.

Definition set_push_parameters (p : PushParameters)
    (r : ManageCollectionSubscriptionRequest) : ManageCollectionSubscriptionRequest :=
  {| mr_message_id := mr_message_id r;
     mr_action := mr_action r;
     mr_collection_name := mr_collection_name r;
     mr_subscription_id := mr_subscription_id r;
     mr_subscription_parameters := mr_subscription_parameters r;
     mr_push_parameters := Some p |}.

Inductive request :=
| ReqDiscovery (message_id : string)
| ReqManageCollectionSubscription (r : ManageCollectionSubscriptionRequest)
| ReqCollectionInformation (message_id : string).

Definition message_id_of (r : request) : string :=
  match r with
  | ReqDiscovery m => m
  | ReqManageCollectionSubscription r => mr_message_id r
  | ReqCollectionInformation m => m
  end.

(** One entry of a collection information response, as received. *)
Record tm11_CollectionInformation := {
  ci_collection_name : string;
  ci_available : bool
}.

(** One subscription of a subscription response, as received. *)
Record tm11_SubscriptionInstance := {
  si_subscription_id : string;
  si_status : string
}.

(** What [_execute_request] hands back for these requests. *)
Inductive message :=
| MsgDiscoveryResponse (service_instances : list (service_type * string))
| MsgManageCollectionSubscriptionResponse (collection_name : string)
    (subscription_instances : list tm11_SubscriptionInstance)
| MsgCollectionInformationResponse
    (collection_informations : list tm11_CollectionInformation)
| MsgStatus (s : StatusMessage).

(** [response.collection_informations]: only a collection information
    response has the attribute. *)
Definition get_collection_informations (response : message)
    : result (list tm11_CollectionInformation) :=
  match response with
  | MsgCollectionInformationResponse l => Ok l
  | _ => Raise (AttributeError "collection_informations")
  end.

(** [_execute_request] at these message classes; [_discovery_request] calls
    it without a service type. *)
Class Dispatcher (W : Type) := {
  _execute_request :
    request -> option string -> option service_type -> W -> result message * W
}.

Section Operations.

Context {W : Type} {client : AbstractClient W} {dispatcher : Dispatcher W}.

(** The entities of [cabby.entities] these operations return, and the
    helpers of [cabby.converters] and [cabby.utils] that make them. *)
Variable SubscriptionResponse : Type.
Variable Collection : Type.
Variable to_subscription_response_entity : message -> result SubscriptionResponse.
Variable to_collection_entities :
  list tm11_CollectionInformation -> result (list Collection).
Variable pack_content_bindings :
  option (list binding_arg) -> option (list tm11_ContentBinding).

Definition _discovery_request (uri : option string) (w : W) : result message * W :=
  let (message_id, w1) := _generate_id w in
  let request := ReqDiscovery message_id in
  _execute_request request uri None w1.

Definition __subscription_status_request (action : action) (collection_name : string)
    (subscription_id : option string) (uri : option string) (w : W)
    : result SubscriptionResponse * W :=
  let (message_id, w1) := _generate_id w in
  let request_parameters :=
    {| mr_message_id := message_id;
       mr_action := action;
       mr_collection_name := collection_name;
       mr_subscription_id := subscription_id;
       mr_subscription_parameters := None;
       mr_push_parameters := None |} in
  match _execute_request (ReqManageCollectionSubscription request_parameters) uri
          (Some SVC_COLLECTION_MANAGEMENT) w1 with
  | (Raise e, w2) => (Raise e, w2)
  | (Ok response, w2) => (to_subscription_response_entity response, w2)
  end.

Definition get_subscription_status (collection_name : string)
    (subscription_id : option string) (uri : option string) (w : W)
    : result SubscriptionResponse * W :=
  __subscription_status_request ACT_STATUS collection_name subscription_id uri w.

Definition pause_subscription (collection_name : string)
    (subscription_id : option string) (uri : option string) (w : W)
    : result SubscriptionResponse * W :=
  __subscription_status_request ACT_PAUSE collection_name subscription_id uri w.

Definition resume_subscription (collection_name : string)
    (subscription_id : option string) (uri : option string) (w : W)
    : result SubscriptionResponse * W :=
  __subscription_status_request ACT_RESUME collection_name subscription_id uri w.

Definition unsubscribe (collection_name : string)
    (subscription_id : option string) (uri : option string) (w : W)
    : result SubscriptionResponse * W :=
  __subscription_status_request ACT_UNSUBSCRIBE collection_name subscription_id uri w.

(** The push parameters [subscribe] makes of an inbox service: its first
    message binding, or the empty string when it has none. *)
Definition subscribe_push_parameters (svc : InboxService) : PushParameters :=
  {| push_inbox_protocol := protocol svc;
     push_inbox_address := address svc;
     push_delivery_message_binding :=
       match message_bindings svc with
       | b :: _ => b
       | [] => ""
       end |}.

Definition subscribe (collection_name : string) (count_only : bool)
    (inbox_service : option InboxService)
    (content_bindings : option (list binding_arg)) (uri : option string) (w : W)
    : result SubscriptionResponse * W :=
  let sparams :=
    {| sp_response_type := if count_only then RT_COUNT_ONLY else RT_FULL;
       sp_content_bindings := pack_content_bindings content_bindings |} in
  let (message_id, w1) := _generate_id w in
  let rparams :=
    {| mr_message_id := message_id;
       mr_action := ACT_SUBSCRIBE;
       mr_collection_name := collection_name;
       mr_subscription_id := None;
       mr_subscription_parameters := Some sparams;
       mr_push_parameters := None |} in
  let rparams :=
    match inbox_service with
    | Some svc => set_push_parameters (subscribe_push_parameters svc) rparams
    | None => rparams
    end in
  match _execute_request (ReqManageCollectionSubscription rparams) uri
          (Some SVC_COLLECTION_MANAGEMENT) w1 with
  | (Raise e, w2) => (Raise e, w2)
  | (Ok response, w2) => (to_subscription_response_entity response, w2)
  end.

Definition get_collections (uri : option string) (w : W)
    : result (list Collection) * W :=
  let (message_id, w1) := _generate_id w in
  let request := ReqCollectionInformation message_id in
  match _execute_request request uri (Some SVC_COLLECTION_MANAGEMENT) w1 with
  | (Raise e, w2) => (Raise e, w2)
  | (Ok response, w2) =>
      match get_collection_informations response with
      | Raise e => (Raise e, w2)
      | Ok collection_informations =>
          (to_collection_entities collection_informations, w2)
      end
  end.

End Operations.

(** The log of a client that records the calls of these operations. *)
Inductive event :=
| EvId (message_id : string)
| EvRequest (r : request) (uri : option string) (service : option service_type)
            (reply : result message).

End Services.

(** A client that records, for the operations above, every call of
    [_generate_id] and of [_execute_request] with its result.  Exchanges at
    the message classes of the poll and inbox services go through
    unrecorded. *)
#[export] Instance ServicesTracedClient (W : Type) (client : AbstractClient W)
    : AbstractClient (list Services.event * W) := {
  _generate_id tw :=
    let (message_id, w1) := _generate_id (snd tw) in
    (message_id, (fst tw ++ [Services.EvId message_id], w1));
  _execute_request r uri service tw :=
    let (reply, w1) := _execute_request r uri service (snd tw) in
    (reply, (fst tw, w1))
}.

#[export] Instance ServicesTracedDispatcher (W : Type)
    (dispatcher : Services.Dispatcher W)
    : Services.Dispatcher (list Services.event * W) := {
  Services._execute_request r uri service tw :=
    let (reply, w1) := Services._execute_request r uri service (snd tw) in
    (reply, (fst tw ++ [Services.EvRequest r uri service reply], w1))
}.

(** The operation [run] makes one identifier and then one exchange: the
    request [sends] makes of that identifier, which carries it, goes to
    address [u] of [service]; [run] raises what the dispatcher raises and
    otherwise returns what [finish] makes of the reply; the client is left as
    the exchange left it. *)
Definition one_exchange {W A : Type} {client : AbstractClient W}
    {dispatcher : Services.Dispatcher W}
    (run : list Services.event * W -> result A * (list Services.event * W))
    (u : option string) (service : option service_type)
    (sends : string -> Services.request)
    (finish : Services.message -> result A) : Prop :=
  (forall m, Services.message_id_of (sends m) = m) /\
  forall (tr : list Services.event) (w : W),
    let message_id := fst (_generate_id w) in
    let answer :=
      Services._execute_request (sends message_id) u service (snd (_generate_id w)) in
    run (tr, w)
    = (match fst answer with
       | Raise e => Raise e
       | Ok response => finish response
       end,
       (tr ++ [Services.EvId message_id;
               Services.EvRequest (sends message_id) u service (fst answer)],
        snd answer)).

(** The response the loop of a [poll] generator looks at, once there is
    one. *)
Definition response_of (g : poll_gen) : option PollResponse :=
  match g with
  | PollFirst _ _ r _ => Some r
  | PollMore _ _ r _ => Some r
  | _ => None
  end.

(** ** Fetching a part *)

(** The request the generator [g] makes when its next step starts by
    fetching a part, with identifier [m], and the address it goes to: the
    poll request for a generator that has not started, the fulfilment
    request of the loop for a generator that has yielded all the blocks it
    received and whose response reports more.  In any other state the next
    step does not start with a request. *)
Definition next_request
    (pack_content_bindings :
       option (list binding_arg) -> option (list tm11_ContentBinding))
    (g : poll_gen) (m : string) : option (request * option string) :=
  match g with
  | PollCreated a => Some (ReqPoll (poll_request pack_content_bindings m a), uri a)
  | PollFirst cn u r [] => if more r then Some (loop_request cn r m, u) else None
  | PollMore cn u r (FulSuspended []) =>
      if more r then Some (loop_request cn r m, u) else None
  | _ => None
  end.

(** The generator [g] once it holds the part [r'] it fetched, with the
    blocks [rest] of that part still to yield. *)
Definition in_part (g : poll_gen) (r' : PollResponse)
    (rest : list tm11_ContentBlock) : poll_gen :=
  match g with
  | PollCreated a => PollFirst (collection_name a) (uri a) r' rest
  | PollFirst cn u r _ => PollMore cn u r (FulSuspended rest)
  | PollMore cn u r _ => PollMore cn u r (FulSuspended rest)
  | PollFinished => PollFinished
  end.

(** A client whose replies to fulfilment requests are retouched by [h]
    before the operations see them; everything else is as with [client]. *)
Definition retouched {W : Type} (h : PollResponse -> PollResponse)
    (client : AbstractClient W) : AbstractClient W := {|
  _generate_id := @_generate_id W client;
  _execute_request q u service w :=
    match q with
    | ReqFulfillment _ =>
        let (reply, w') := @_execute_request W client q u service w in
        (match reply with
         | Ok (MsgPollResponse r) => Ok (MsgPollResponse (h r))
         | _ => reply
         end, w')
    | _ => @_execute_request W client q u service w
    end
|}.

(** A retouching that keeps the blocks and changes all the rest. *)
Definition scramble (r : PollResponse) : PollResponse :=
  {| content_blocks := content_blocks r;
     more := negb (more r);
     result_id := "other";
     result_part_number := 0 |}.


(** ** Shapes of the log of a poll *)

Definition message_id_of (r : request) : string :=
  match r with
  | ReqPoll p => pr_message_id p
  | ReqFulfillment f => fr_message_id f
  | ReqInbox m => im_message_id m
  end.

(** A log made of fulfilment exchanges only: each is an identifier followed
    by a fulfilment request that carries it, for collection [cn] and result
    set [rid], sent to address [u] of the poll service. *)
Inductive fulfilment_log (cn : string) (u : option string) (rid : string)
    : list event -> Prop :=
| fulfilment_log_nil : fulfilment_log cn u rid []
| fulfilment_log_snoc (tr : list event) (f : PollFulfillmentRequest)
    (reply : result message) :
    fulfilment_log cn u rid tr ->
    fr_collection_name f = cn ->
    fr_result_id f = rid ->
    fulfilment_log cn u rid
      (tr ++ [EvId (fr_message_id f); EvRequest (ReqFulfillment f) u SVC_POLL reply]).

(** What the generator of [poll a] may be once its first step is made, the
    poll request having been answered by [reply]. *)
Definition poll_state_after (a : poll_args) (reply : result message) (g : poll_gen)
    : Prop :=
  match g with
  | PollCreated _ => False
  | PollFirst cn u r _ =>
      cn = collection_name a /\ u = uri a /\ reply = Ok (MsgPollResponse r)
  | PollMore cn u r (FulSuspended _) =>
      cn = collection_name a /\ u = uri a /\ reply = Ok (MsgPollResponse r)
  | PollMore _ _ _ _ => False
  | PollFinished => True
  end.



(** A client with a script: identifiers count up from the state, and the
    reply to a request is what the script says for it. *)
Definition scripted (reply : request -> result message) : AbstractClient N := {|
  _generate_id k := (NilZero.string_of_uint (N.to_uint k), N.succ k);
  _execute_request r uri service k := (reply r, k)
|}.

(** A server with one part: the blocks a and b, nothing more to come. *)
Definition one_part (r : request) : result message :=
  Ok (MsgPollResponse
        {| content_blocks := [Simulation.wire "a"; Simulation.wire "b"];
           more := false;
           result_id := "r1";
           result_part_number := 1 |}).


(** Reads the parts of an equation between two results of a run. *)
Ltac same_run H := injection H; clear H; intros; subst.

(** * Properties *)

(** ** The poll request *)

(** The arguments of a call, with [subscription_id] left out. *)
Definition without_subscription_id (a : poll_args) : poll_args :=
  {| collection_name := collection_name a;
     begin_date := begin_date a;
     end_date := end_date a;
     count_only := count_only a;
     subscription_id := None;
     inbox_service := inbox_service a;
     content_bindings := content_bindings a;
     uri := uri a |}.

(** A request that carries subscription [s] and nothing of an ad-hoc query:
    no date range and no poll parameters. *)
Definition only_subscription (s : string) (r : PollRequest) : Prop :=
  pr_subscription_id r = Some s /\
  pr_exclusive_begin_timestamp_label r = None /\
  pr_inclusive_end_timestamp_label r = None /\
  pr_poll_parameters r = None.

Section PollRequestFacts.

Variable pack_content_bindings :
  option (list binding_arg) -> option (list tm11_ContentBinding).

(** C4, as amended.  The date range is part of every poll request, in both
    modes.  A subscription id that is true for Python (neither [None] nor
    empty) is sent and takes the place of the poll parameters; otherwise no
    subscription id is sent and the poll parameters are: the packed content
    bindings and, for a count-only poll, the count-only response type. *)
Theorem poll_request_modes (message_id : string) (a : poll_args) :
  let r := poll_request pack_content_bindings message_id a in
  pr_exclusive_begin_timestamp_label r = begin_date a /\
  pr_inclusive_end_timestamp_label r = end_date a /\
  if truthy_str (subscription_id a)
  then pr_subscription_id r = subscription_id a /\ pr_poll_parameters r = None
  else pr_subscription_id r = None /\
       exists p, pr_poll_parameters r = Some p /\
         pp_content_bindings p = pack_content_bindings (content_bindings a) /\
         pp_response_type p = (if count_only a then Some RT_COUNT_ONLY else None).
Proof.
  unfold poll_request.
  destruct (truthy_str (subscription_id a)); cbn.
  - repeat split.
  - repeat split. eexists. split; [reflexivity |].
    destruct (inbox_service a), (count_only a); split; reflexivity.
Qed.

(** C10.  A subscription id that is supplied but empty selects the ad-hoc
    mode: the request is the one built when the id is left out, it has poll
    parameters and no subscription id, and the whole first step of the
    generator is the same. *)
Theorem poll_empty_subscription_id
    {W : Type} {client : AbstractClient W}
    (to_content_block_entity : tm11_ContentBlock -> result ContentBlock)
    (message_id : string) (a : poll_args) (fuel : nat) (w : W) :
  subscription_id a = Some "" ->
  poll_request pack_content_bindings message_id a
    = poll_request pack_content_bindings message_id (without_subscription_id a) /\
  pr_subscription_id (poll_request pack_content_bindings message_id a) = None /\
  pr_poll_parameters (poll_request pack_content_bindings message_id a) <> None /\
  poll_next pack_content_bindings to_content_block_entity fuel (PollCreated a) w
    = poll_next pack_content_bindings to_content_block_entity fuel
        (PollCreated (without_subscription_id a)) w.
Proof.
  intros Hempty.
  assert (Hreq : forall m, poll_request pack_content_bindings m a
                 = poll_request pack_content_bindings m (without_subscription_id a)).
  { intros m. unfold poll_request. rewrite Hempty. reflexivity. }
  repeat split.
  - apply Hreq.
  - unfold poll_request. rewrite Hempty. reflexivity.
  - unfold poll_request. rewrite Hempty. cbn. discriminate.
  - cbn. destruct (_generate_id w) as [m w1]. rewrite Hreq. reflexivity.
Qed.

End PollRequestFacts.

(** C4, counterexample.  With subscription ["s1"] and a begin date, the
    request still carries the begin date. *)
Lemma poll_subscription_sends_date_range :
  ~ only_subscription "s1"
      (poll_request pack_bindings "1" (Simulation.feed (Some "s1") (Some 5%Z))).
Proof.
  unfold only_subscription. cbn. intros (_ & Hbegin & _). discriminate.
Qed.

Lemma poll_empty_subscription_id_witness :
  subscription_id (Simulation.feed (Some "") None) = Some "" /\
  pr_subscription_id (poll_request pack_bindings "1" (Simulation.feed (Some "") None)) = None.
Proof.
  split; [reflexivity |].
  apply (@poll_empty_subscription_id pack_bindings session
           (Simulation.client Simulation.two_parts) convert_block
           "1" (Simulation.feed (Some "") None) 1 Simulation.start).
  reflexivity.
Defined.

(** ** What the generators ask of the client, and when *)

Section Traces.

Context {W : Type} {client : AbstractClient W}.
Variable pack_content_bindings :
  option (list binding_arg) -> option (list tm11_ContentBinding).
Variable to_content_block_entity : tm11_ContentBlock -> result ContentBlock.

Lemma traced_generate_id (tr : list event) (w : W) :
  _generate_id (tr, w)
  = (fst (_generate_id w), (tr ++ [EvId (fst (_generate_id w))], snd (_generate_id w))).
Proof. cbn. destruct (_generate_id w); reflexivity. Qed.

Lemma traced_execute_request (r : request) (uri : option string)
    (service : service_type) (tr : list event) (w : W) :
  _execute_request r uri service (tr, w)
  = (fst (_execute_request r uri service w),
     (tr ++ [EvRequest r uri service (fst (_execute_request r uri service w))],
      snd (_execute_request r uri service w))).
Proof. cbn. destruct (_execute_request r uri service w); reflexivity. Qed.

Lemma exchanges_app (tr1 tr2 : list event) :
  exchanges (tr1 ++ tr2) = exchanges tr1 ++ exchanges tr2.
Proof.
  induction tr1 as [| [m | r u s reply] tr1 IH]; cbn; [reflexivity | assumption |].
  now rewrite IH.
Qed.

(** Pulling blocks from a suspended [fulfilment] generator touches nothing
    but the blocks it holds. *)
Lemma fulfilment_take_suspended (n : nat) (rest : list tm11_ContentBlock)
    (tw : list event * W) :
  exists g,
    fulfilment_take to_content_block_entity n (FulSuspended rest) tw
    = (firstn n (converted to_content_block_entity rest),
       blocks_ending to_content_block_entity n rest, g, tw).
Proof.
  revert rest. induction n as [| n IH]; intros rest.
  - eexists. reflexivity.
  - destruct rest as [| b rest]; cbn.
    + eexists. reflexivity.
    + destruct (to_content_block_entity b) as [blk | e]; cbn.
      * destruct (IH rest) as [g Hg]. rewrite Hg. eexists. reflexivity.
      * eexists. reflexivity.
Qed.

(** C8.  Whatever the client and the server do, a consumer that pulls one
    block or more from [fulfilment] makes it generate one identifier and
    send one request, the fulfilment request for the given result id and
    part number.  What it receives is the entities of the blocks of the
    reply to that request, in order; the [more] flag, the result id and the
    part number of the reply play no part, and the sequence ends with the
    blocks of that reply. *)
Theorem fulfilment_single_request (collection_name result_id : string)
    (part_number : Z) (uri : option string) (w : W) (n : nat) :
  let message_id := fst (_generate_id w) in
  let request :=
    ReqFulfillment {| fr_message_id := message_id;
                      fr_collection_name := collection_name;
                      fr_result_id := result_id;
                      fr_result_part_number := part_number |} in
  let answer := _execute_request request uri SVC_POLL (snd (_generate_id w)) in
  exists g,
    fulfilment_run to_content_block_entity (S n)
      collection_name result_id part_number uri ([], w)
    = (firstn (S n) (entities_of to_content_block_entity (fst answer)),
       reply_ending to_content_block_entity (S n) (fst answer),
       g,
       ([EvId message_id; EvRequest request uri SVC_POLL (fst answer)], snd answer)).
Proof.
  intros message_id request answer.
  unfold fulfilment_run, fulfilment.
  cbn [fulfilment_take fulfilment_next].
  rewrite traced_generate_id. fold message_id.
  rewrite traced_execute_request. fold request. fold answer.
  destruct (fst answer) as [[r | st] | e]; cbn.
  - destruct (content_blocks r) as [| b rest]; cbn.
    + eexists. reflexivity.
    + destruct (to_content_block_entity b) as [blk | e]; cbn.
      * destruct (fulfilment_take_suspended n rest
                    ([EvId message_id;
                      EvRequest request uri SVC_POLL (Ok (MsgPollResponse r))],
                     snd answer)) as [g Hg].
        rewrite Hg. eexists. reflexivity.
      * eexists. reflexivity.
  - eexists. reflexivity.
  - eexists. reflexivity.
Qed.

(** *** The log only grows *)

Lemma fulfilment_next_extends (g g' : fulfilment_gen) (tr tr' : list event)
    (w w' : W) (o : outcome) :
  fulfilment_next to_content_block_entity g (tr, w) = (o, g', (tr', w')) ->
  exists rest, tr' = tr ++ rest.
Proof.
  destruct g as [cn rid pn u | blocks |]; cbn [fulfilment_next].
  - rewrite traced_generate_id, traced_execute_request.
    destruct (fst (_execute_request _ u SVC_POLL (snd (_generate_id w))))
      as [response | e]; [destruct (get_content_blocks response) |];
      intros H; same_run H;
      rewrite <- app_assoc; eexists; reflexivity.
  - intros H. same_run H. exists []. now rewrite app_nil_r.
  - intros H. same_run H. exists []. now rewrite app_nil_r.
Qed.

Lemma poll_while_extends (fuel : nat) (cn : string) (u : option string)
    (r : PollResponse) (tr tr' : list event) (w w' : W) (o : outcome) (g' : poll_gen) :
  poll_while to_content_block_entity fuel cn u r (tr, w) = Some (o, g', (tr', w')) ->
  exists rest, tr' = tr ++ rest.
Proof.
  revert tr w. induction fuel as [| fuel IH]; intros tr w; cbn [poll_while].
  - discriminate.
  - destruct (more r).
    + unfold fulfilment.
      destruct (fulfilment_next to_content_block_entity
                  (FulCreated cn (result_id r) (result_part_number r + 1) u) (tr, w))
        as [[o1 g1] [tr1 w1]] eqn:Hnext.
      apply fulfilment_next_extends in Hnext. destruct Hnext as [rest1 ->].
      destruct o1 as [blk | e |].
      * intros H. same_run H. eauto.
      * intros H. same_run H. eauto.
      * intros H. apply IH in H. destruct H as [rest2 ->].
        rewrite <- app_assoc. eauto.
    + intros H. same_run H. exists []. now rewrite app_nil_r.
Qed.

Lemma poll_first_extends (fuel : nat) (cn : string) (u : option string)
    (r : PollResponse) (blocks : list tm11_ContentBlock)
    (tr tr' : list event) (w w' : W) (o : outcome) (g' : poll_gen) :
  poll_first to_content_block_entity fuel cn u r blocks (tr, w) = Some (o, g', (tr', w')) ->
  exists rest, tr' = tr ++ rest.
Proof.
  destruct blocks as [| b rest]; cbn [poll_first].
  - apply poll_while_extends.
  - destruct (to_content_block_entity b);
      intros H; same_run H; exists []; now rewrite app_nil_r.
Qed.

(** The first step of [poll]: one identifier, one poll request, and then the
    first [for] loop over the blocks of the reply. *)
Lemma poll_next_created (fuel : nat) (a : poll_args) (tr : list event) (w : W) :
  let message_id := fst (_generate_id w) in
  let request := ReqPoll (poll_request pack_content_bindings message_id a) in
  let answer := _execute_request request (uri a) SVC_POLL (snd (_generate_id w)) in
  let tr1 := tr ++ [EvId message_id; EvRequest request (uri a) SVC_POLL (fst answer)] in
  poll_next pack_content_bindings to_content_block_entity fuel (PollCreated a) (tr, w)
  = match fst answer with
    | Raise e => Some (Raised e, PollFinished, (tr1, snd answer))
    | Ok (MsgStatus _) =>
        Some (Raised (AttributeError "content_blocks"), PollFinished, (tr1, snd answer))
    | Ok (MsgPollResponse r) =>
        poll_first to_content_block_entity fuel (collection_name a) (uri a) r
          (content_blocks r) (tr1, snd answer)
    end.
Proof.
  intros message_id request answer tr1.
  cbn [poll_next].
  rewrite traced_generate_id. fold message_id.
  rewrite traced_execute_request. fold request. fold answer.
  subst tr1. rewrite <- app_assoc. cbn [app].
  destruct (fst answer) as [[r | st] | e]; reflexivity.
Qed.

(** C9.  Calling [poll] or [fulfilment] leaves the client as it was: no
    identifier is generated and nothing is sent, and so it stays for a
    consumer that asks for no block.  The first step of the generator is
    what generates the identifier and then sends the request (the poll
    request for [poll], the fulfilment request for [fulfilment]); with
    [poll] the step then goes on with the first [for] loop over the blocks
    of the reply. *)
Theorem generators_start_at_first_next
    (a : poll_args) (name result_id : string) (part_number : Z)
    (u : option string) (fuel : nat) (tr : list event) (w : W) :
  let message_id := fst (_generate_id w) in
  let request := ReqPoll (poll_request pack_content_bindings message_id a) in
  let frequest :=
    ReqFulfillment {| fr_message_id := message_id;
                      fr_collection_name := name;
                      fr_result_id := result_id;
                      fr_result_part_number := part_number |} in
  let answer := _execute_request request (uri a) SVC_POLL (snd (_generate_id w)) in
  let fanswer := _execute_request frequest u SVC_POLL (snd (_generate_id w)) in
  let tr1 := tr ++ [EvId message_id; EvRequest request (uri a) SVC_POLL (fst answer)] in
  poll a (tr, w) = (PollCreated a, (tr, w)) /\
  fulfilment name result_id part_number u (tr, w)
    = (FulCreated name result_id part_number u, (tr, w)) /\
  poll_run pack_content_bindings to_content_block_entity fuel 0 a (tr, w)
    = Some ([], Suspended, PollCreated a, (tr, w)) /\
  fulfilment_run to_content_block_entity 0 name result_id part_number u (tr, w)
    = ([], Suspended, FulCreated name result_id part_number u, (tr, w)) /\
  poll_next pack_content_bindings to_content_block_entity fuel (PollCreated a) (tr, w)
    = match fst answer with
      | Raise e => Some (Raised e, PollFinished, (tr1, snd answer))
      | Ok (MsgStatus _) =>
          Some (Raised (AttributeError "content_blocks"), PollFinished, (tr1, snd answer))
      | Ok (MsgPollResponse r) =>
          poll_first to_content_block_entity fuel (collection_name a) (uri a) r
            (content_blocks r) (tr1, snd answer)
      end /\
  exists o g,
    fulfilment_next to_content_block_entity
      (FulCreated name result_id part_number u) (tr, w)
    = (o, g, (tr ++ [EvId message_id; EvRequest frequest u SVC_POLL (fst fanswer)],
              snd fanswer)).
Proof.
  intros message_id request frequest answer fanswer tr1.
  repeat (split; [reflexivity |]). split.
  - apply poll_next_created.
  - cbn [fulfilment_next].
    rewrite traced_generate_id. fold message_id.
    rewrite traced_execute_request. fold frequest. fold fanswer.
    rewrite <- app_assoc. cbn [app].
    destruct (fst fanswer) as [response | e];
      [destruct (get_content_blocks response) as [blocks | e] |].
    + destruct (fulfilment_blocks to_content_block_entity blocks) as [o g].
      exists o, g. reflexivity.
    + eexists _, _. reflexivity.
    + eexists _, _. reflexivity.
Qed.

(** *** Parts are fetched one at a time, each when its blocks are needed *)

Lemma converted_app (pre rest : list tm11_ContentBlock) (es : list ContentBlock) :
  map to_content_block_entity pre = map Ok es ->
  converted to_content_block_entity (pre ++ rest)
  = es ++ converted to_content_block_entity rest.
Proof.
  revert es. induction pre as [| b pre IH]; intros [| e es] H; cbn in H;
    try discriminate; cbn.
  - reflexivity.
  - injection H as Hb Hpre. rewrite Hb. now rewrite (IH es Hpre).
Qed.

Lemma yields_all_first (x : request * result message) (es : list ContentBlock) :
  yields_all to_content_block_entity x es -> yields_first to_content_block_entity x es.
Proof.
  intros (r & Hx & Hes). exists []. rewrite Hx. cbn.
  rewrite <- (app_nil_r (content_blocks r)).
  now rewrite (@converted_app (content_blocks r) [] es Hes).
Qed.

Lemma yields_all_snoc (earlier : list (request * result message))
    (last : request * result message) (ess : list (list ContentBlock))
    (es : list ContentBlock) :
  Forall2 (yields_all to_content_block_entity) earlier ess ->
  yields_all to_content_block_entity last es ->
  Forall2 (yields_all to_content_block_entity) (earlier ++ [last]) (ess ++ [es]).
Proof.
  intros Hearlier Hlast. apply Forall2_app; [assumption |].
  constructor; [assumption | constructor].
Qed.

Lemma concat_snoc (ess : list (list ContentBlock)) (es : list ContentBlock) :
  List.concat (ess ++ [es]) = List.concat ess ++ es.
Proof. rewrite concat_app. cbn. now rewrite app_nil_r. Qed.

(** A reply that ends the sequence with an exception before any of its
    blocks is yielded. *)
Lemma served_failed (earlier : list (request * result message))
    (last x : request * result message) (ess : list (list ContentBlock))
    (es : list ContentBlock) (e : exn) :
  Forall2 (yields_all to_content_block_entity) earlier ess ->
  yields_all to_content_block_entity last es ->
  served to_content_block_entity ((earlier ++ [last]) ++ [x])
    (List.concat ess ++ es) (Failed e).
Proof.
  intros Hearlier Hlast.
  exists (earlier ++ [last]), x, (ess ++ [es]), [].
  split; [reflexivity |]. split; [now apply yields_all_snoc |].
  split; [now exists (entities_of to_content_block_entity (snd x)) |].
  split; [now rewrite concat_snoc, app_nil_r | discriminate].
Qed.

(** The [while] loop, entered when every block received so far has been
    yielded. *)
Lemma poll_while_served (fuel : nat) (cn : string) (u : option string)
    (r0 : PollResponse) :
  forall (tr tr' : list event) (w w' : W) (o : outcome) (g' : poll_gen)
         (earlier : list (request * result message)) (last : request * result message)
         (ess : list (list ContentBlock)) (es : list ContentBlock),
  exchanges tr = earlier ++ [last] ->
  Forall2 (yields_all to_content_block_entity) earlier ess ->
  yields_all to_content_block_entity last es ->
  poll_while to_content_block_entity fuel cn u r0 (tr, w) = Some (o, g', (tr', w')) ->
  step_served to_content_block_entity o g' (exchanges tr') (List.concat ess ++ es).
Proof.
  induction fuel as [| fuel IH]; intros tr tr' w w' o g' earlier last ess es
    Htr Hearlier Hlast; cbn [poll_while]; [discriminate |].
  destruct (more r0).
  - unfold fulfilment. cbn [fulfilment_next].
    rewrite traced_generate_id, traced_execute_request.
    set (message_id := fst (_generate_id w)).
    set (request := ReqFulfillment _).
    set (answer := _execute_request request u SVC_POLL (snd (_generate_id w))).
    assert (Hx : forall reply, exchanges ((tr ++ [EvId message_id])
                   ++ [EvRequest request u SVC_POLL reply])
                 = (earlier ++ [last]) ++ [(request, reply)]).
    { intros reply. rewrite !exchanges_app, Htr. cbn. now rewrite app_nil_r. }
    destruct (fst answer) as [[r | st] | e]; cbn [get_content_blocks].
    + destruct (content_blocks r) as [| b rest] eqn:Hblocks; cbn [fulfilment_blocks].
      * intros Hrun.
        assert (Hr : yields_all to_content_block_entity
                       (request, Ok (MsgPollResponse r)) []).
        { exists r. split; [reflexivity |]. now rewrite Hblocks. }
        pose proof (IH _ _ _ _ _ _ _ _ _ _ (Hx _)
                      (yields_all_snoc Hearlier Hlast) Hr Hrun) as Hserved.
        now rewrite concat_snoc, app_nil_r in Hserved.
      * destruct (to_content_block_entity b) as [blk | e] eqn:Hb; intros Hrun;
          same_run Hrun; cbn [step_served]; rewrite Hx.
        -- exists (earlier ++ [last]), request, r, (ess ++ [es]), [b], rest, [blk].
           split; [reflexivity |]. split; [now apply yields_all_snoc |].
           split; [assumption |]. split; [cbn; now rewrite Hb |].
           split; [discriminate |]. split; [now rewrite concat_snoc |].
           exists cn, u. right. now exists r0.
        -- exists (earlier ++ [last]), (request, Ok (MsgPollResponse r)), (ess ++ [es]), [].
           split; [reflexivity |]. split; [now apply yields_all_snoc |].
           split; [exists []; cbn; now rewrite Hblocks; cbn; rewrite Hb |].
           split; [now rewrite concat_snoc, app_nil_r | discriminate].
    + intros Hrun. same_run Hrun. cbn [step_served]. rewrite Hx.
      now apply served_failed.
    + intros Hrun. same_run Hrun. cbn [step_served]. rewrite Hx.
      now apply served_failed.
  - intros Hrun. same_run Hrun. cbn [step_served]. rewrite Htr.
    exists earlier, last, ess, es.
    split; [reflexivity |]. split; [assumption |].
    split; [now apply yields_all_first |]. split; [reflexivity | discriminate].
Qed.

(** The next block of the current reply converts and is yielded. *)
Lemma next_block_served (g' : poll_gen) (earlier : list (request * result message))
    (q : request) (r : PollResponse) (ess : list (list ContentBlock))
    (pre rest : list tm11_ContentBlock) (b : tm11_ContentBlock)
    (es : list ContentBlock) (blk : ContentBlock) (cn : string) (u : option string) :
  Forall2 (yields_all to_content_block_entity) earlier ess ->
  content_blocks r = pre ++ b :: rest ->
  map to_content_block_entity pre = map Ok es ->
  to_content_block_entity b = Ok blk ->
  (g' = PollFirst cn u r rest \/ exists r0, g' = PollMore cn u r0 (FulSuspended rest)) ->
  between_yields to_content_block_entity g'
    (earlier ++ [(q, Ok (MsgPollResponse r))]) ((List.concat ess ++ es) ++ [blk]).
Proof.
  intros Hearlier Hblocks Hpre Hb Hg.
  exists earlier, q, r, ess, (pre ++ [b]), rest, (es ++ [blk]).
  split; [reflexivity |]. split; [assumption |].
  split; [now rewrite <- app_assoc |].
  split; [rewrite !map_app, Hpre; cbn; now rewrite Hb |].
  split; [now destruct es |]. split; [now rewrite app_assoc |].
  now exists cn, u.
Qed.

(** The next block of the current reply does not convert. *)
Lemma bad_block_served (earlier : list (request * result message))
    (q : request) (r : PollResponse) (ess : list (list ContentBlock))
    (pre rest : list tm11_ContentBlock) (b : tm11_ContentBlock)
    (es : list ContentBlock) (e : exn) :
  Forall2 (yields_all to_content_block_entity) earlier ess ->
  content_blocks r = pre ++ b :: rest ->
  map to_content_block_entity pre = map Ok es ->
  to_content_block_entity b = Raise e ->
  served to_content_block_entity
    (earlier ++ [(q, Ok (MsgPollResponse r))]) (List.concat ess ++ es) (Failed e).
Proof.
  intros Hearlier Hblocks Hpre Hb.
  exists earlier, (q, Ok (MsgPollResponse r)), ess, es.
  split; [reflexivity |]. split; [assumption |].
  split; [| split; [reflexivity | discriminate]].
  exists []. cbn. rewrite Hblocks, (@converted_app pre (b :: rest) es Hpre).
  cbn. now rewrite Hb.
Qed.

(** The first [for] loop, at any of its steps. *)
Lemma poll_first_served (fuel : nat) (cn : string) (u : option string)
    (r : PollResponse) (pre rest : list tm11_ContentBlock) (es : list ContentBlock)
    (tr tr' : list event) (w w' : W) (o : outcome) (g' : poll_gen)
    (earlier : list (request * result message)) (q : request)
    (ess : list (list ContentBlock)) :
  exchanges tr = earlier ++ [(q, Ok (MsgPollResponse r))] ->
  Forall2 (yields_all to_content_block_entity) earlier ess ->
  content_blocks r = pre ++ rest ->
  map to_content_block_entity pre = map Ok es ->
  poll_first to_content_block_entity fuel cn u r rest (tr, w) = Some (o, g', (tr', w')) ->
  step_served to_content_block_entity o g' (exchanges tr') (List.concat ess ++ es).
Proof.
  intros Htr Hearlier Hblocks Hpre.
  destruct rest as [| b rest]; cbn [poll_first].
  - intros Hrun.
    eapply poll_while_served; [exact Htr | exact Hearlier | | exact Hrun].
    exists r. split; [reflexivity |]. now rewrite Hblocks, app_nil_r.
  - destruct (to_content_block_entity b) as [blk | e] eqn:Hb; intros Hrun;
      same_run Hrun; cbn [step_served]; rewrite Htr.
    + eapply next_block_served; [exact Hearlier | exact Hblocks | exact Hpre | exact Hb |].
      now left.
    + eapply bad_block_served; [exact Hearlier | exact Hblocks | exact Hpre | exact Hb].
Qed.

(** A step of the [for] loop inside the [while] loop. *)
Lemma poll_more_served (fuel : nat) (cn : string) (u : option string)
    (r0 r : PollResponse) (pre rest : list tm11_ContentBlock) (es : list ContentBlock)
    (tr tr' : list event) (w w' : W) (o : outcome) (g' : poll_gen)
    (earlier : list (request * result message)) (q : request)
    (ess : list (list ContentBlock)) :
  exchanges tr = earlier ++ [(q, Ok (MsgPollResponse r))] ->
  Forall2 (yields_all to_content_block_entity) earlier ess ->
  content_blocks r = pre ++ rest ->
  map to_content_block_entity pre = map Ok es ->
  poll_next pack_content_bindings to_content_block_entity fuel
    (PollMore cn u r0 (FulSuspended rest)) (tr, w) = Some (o, g', (tr', w')) ->
  step_served to_content_block_entity o g' (exchanges tr') (List.concat ess ++ es).
Proof.
  intros Htr Hearlier Hblocks Hpre.
  destruct rest as [| b rest]; cbn [poll_next fulfilment_next fulfilment_blocks].
  - intros Hrun.
    eapply poll_while_served; [exact Htr | exact Hearlier | | exact Hrun].
    exists r. split; [reflexivity |]. now rewrite Hblocks, app_nil_r.
  - destruct (to_content_block_entity b) as [blk | e] eqn:Hb; intros Hrun;
      same_run Hrun; cbn [step_served]; rewrite Htr.
    + eapply next_block_served; [exact Hearlier | exact Hblocks | exact Hpre | exact Hb |].
      right. now exists r0.
    + eapply bad_block_served; [exact Hearlier | exact Hblocks | exact Hpre | exact Hb].
Qed.

Lemma poll_next_served (fuel : nat) (g g' : poll_gen) (tr tr' : list event)
    (w w' : W) (o : outcome) (blocks : list ContentBlock) :
  between_yields to_content_block_entity g (exchanges tr) blocks ->
  poll_next pack_content_bindings to_content_block_entity fuel g (tr, w)
    = Some (o, g', (tr', w')) ->
  step_served to_content_block_entity o g' (exchanges tr') blocks.
Proof.
  intros (earlier & q & r & ess & pre & rest & es & Htr & Hearlier & Hblocks
          & Hpre & _ & -> & cn & u & [-> | [r0 ->]]).
  - cbn [poll_next]. intros Hrun.
    eapply poll_first_served;
      [exact Htr | exact Hearlier | exact Hblocks | exact Hpre | exact Hrun].
  - intros Hrun.
    eapply poll_more_served;
      [exact Htr | exact Hearlier | exact Hblocks | exact Hpre | exact Hrun].
Qed.

Lemma between_yields_served (g : poll_gen) (xs : list (request * result message))
    (blocks : list ContentBlock) (fin : ending) :
  between_yields to_content_block_entity g xs blocks ->
  served to_content_block_entity xs blocks fin.
Proof.
  intros (earlier & q & r & ess & pre & rest & es & -> & Hearlier & Hblocks
          & Hpre & Hne & -> & _).
  exists earlier, (q, Ok (MsgPollResponse r)), ess, es.
  split; [reflexivity |]. split; [assumption |].
  split; [| split; [reflexivity | now intros _]].
  exists (converted to_content_block_entity rest). cbn.
  now rewrite Hblocks, (@converted_app pre rest es Hpre).
Qed.

Lemma poll_take_served (fuel n : nat) :
  forall (g g' : poll_gen) (tr tr' : list event) (w w' : W)
         (blocks bs : list ContentBlock) (fin : ending),
  between_yields to_content_block_entity g (exchanges tr) blocks ->
  poll_take pack_content_bindings to_content_block_entity fuel n g (tr, w)
    = Some (bs, fin, g', (tr', w')) ->
  served to_content_block_entity (exchanges tr') (blocks ++ bs) fin.
Proof.
  induction n as [| n IH]; intros g g' tr tr' w w' blocks bs fin Hg; cbn [poll_take].
  - intros Hrun. same_run Hrun. rewrite app_nil_r.
    now apply between_yields_served with (g := g').
  - destruct (poll_next pack_content_bindings to_content_block_entity fuel g (tr, w))
      as [[[o g1] [tr1 w1]] |] eqn:Hnext; [| discriminate].
    assert (Hstep : step_served to_content_block_entity o g1 (exchanges tr1) blocks)
      by (eapply poll_next_served; [exact Hg | exact Hnext]).
    destruct o as [blk | e |]; cbn [step_served] in Hstep.
    + destruct (poll_take pack_content_bindings to_content_block_entity fuel n g1 (tr1, w1))
        as [[[[bs1 fin1] g2] [tr2 w2]] |] eqn:Htake; [| discriminate].
      intros Hrun. same_run Hrun.
      change (blk :: bs1) with ([blk] ++ bs1). rewrite app_assoc.
      eapply IH; [exact Hstep | exact Htake].
    + intros Hrun. same_run Hrun. now rewrite app_nil_r.
    + intros Hrun. same_run Hrun. now rewrite app_nil_r.
Qed.

(** The shape of any run.  Take any client and server, and a consumer that
    pulled blocks from [poll] and stopped.  The blocks it holds are, in
    order, all the blocks of every reply but the last, followed by the first
    blocks of the last reply; and if the generator is still suspended, the
    last reply gave the consumer at least one block. *)
Theorem poll_requests_parts_lazily (fuel n : nat) (a : poll_args) (w w' : W)
    (bs : list ContentBlock) (fin : ending) (g : poll_gen) (tr : list event) :
  0 < n ->
  poll_run pack_content_bindings to_content_block_entity fuel n a ([], w)
    = Some (bs, fin, g, (tr, w')) ->
  exists earlier last ess es,
    exchanges tr = earlier ++ [last] /\
    Forall2 (yields_all to_content_block_entity) earlier ess /\
    yields_first to_content_block_entity last es /\
    bs = List.concat ess ++ es /\
    (fin = Suspended -> es <> []).
Proof.
  intros Hn. destruct n as [| n]; [lia |].
  unfold poll_run, poll. cbn [poll_take].
  rewrite poll_next_created. cbn [app].
  set (message_id := fst (_generate_id w)).
  set (request := ReqPoll _).
  set (answer := _execute_request request (uri a) SVC_POLL (snd (_generate_id w))).
  assert (Hfailed : forall reply e,
            served to_content_block_entity
              (exchanges [EvId message_id; EvRequest request (uri a) SVC_POLL reply])
              [] (Failed e)).
  { intros reply e. exists [], (request, reply), [], [].
    split; [reflexivity |]. split; [constructor |].
    split; [now exists (entities_of to_content_block_entity reply) |].
    split; [reflexivity | discriminate]. }
  destruct (fst answer) as [[r | st] | e].
  - destruct (poll_first to_content_block_entity fuel (collection_name a) (uri a) r
                (content_blocks r)
                ([EvId message_id; EvRequest request (uri a) SVC_POLL
                                     (Ok (MsgPollResponse r))], snd answer))
      as [[[o g1] [tr1 w1]] |] eqn:Hfirst; [| discriminate].
    assert (Hstep : step_served to_content_block_entity o g1 (exchanges tr1) []).
    { change (@nil ContentBlock) with (List.concat (@nil (list ContentBlock)) ++ []).
      eapply poll_first_served with (pre := []) (earlier := []);
        only 5: exact Hfirst; [reflexivity | constructor | reflexivity | reflexivity]. }
    destruct o as [blk | e |]; cbn [step_served] in Hstep.
    + destruct (poll_take pack_content_bindings to_content_block_entity fuel n g1 (tr1, w1))
        as [[[[bs1 fin1] g2] [tr2 w2]] |] eqn:Htake; [| discriminate].
      intros Hrun. same_run Hrun.
      change (blk :: bs1) with ([] ++ [blk] ++ bs1). rewrite app_assoc.
      eapply poll_take_served; [exact Hstep | exact Htake].
    + intros Hrun. same_run Hrun. exact Hstep.
    + intros Hrun. same_run Hrun. exact Hstep.
  - intros Hrun. same_run Hrun. apply Hfailed.
  - intros Hrun. same_run Hrun. apply Hfailed.
Qed.

End Traces.

(** ** Failures while iterating *)

Section Failures.

Context {W : Type} {client : AbstractClient W}.
Variable pack_content_bindings :
  option (list binding_arg) -> option (list tm11_ContentBinding).
Variable to_content_block_entity : tm11_ContentBlock -> result ContentBlock.

Lemma poll_take_S (fuel n : nat) (g : poll_gen) (w : W) :
  poll_take pack_content_bindings to_content_block_entity fuel (S n) g w
  = match poll_next pack_content_bindings to_content_block_entity fuel g w with
    | None => None
    | Some (Yielded block, g1, w1) =>
        match poll_take pack_content_bindings to_content_block_entity fuel n g1 w1 with
        | Some (blocks, fin, g2, w2) => Some (block :: blocks, fin, g2, w2)
        | None => None
        end
    | Some (Raised e, g1, w1) => Some ([], Failed e, g1, w1)
    | Some (StopIteration, g1, w1) => Some ([], Exhausted, g1, w1)
    end.
Proof. reflexivity. Qed.





End Failures.


(** ** push *)

Section Push.

Variable transport_send : list (string * request) -> string -> request -> result message.
Variable discovery_trigger : string -> list ServiceDescriptor.
Variable supported_uri : string -> bool.
Variable pack_content_binding : binding_arg -> tm11_ContentBinding.
Variable get_utc_now : datetime.

(** C7.  The session knows one inbox service, [d], and the server answers
    an inbox message with a success status.  Then [push], called without an
    address, raises nothing and returns normally, which is the
    acknowledgement the caller gets (the value returned is Python's [None]);
    one message went to the address of [d], carrying the content. *)
Theorem push_success_acknowledged (payload : string) (binding : binding_arg)
    (names : option (list string)) (timestamp : option datetime)
    (s : session) (d : ServiceDescriptor) (st : StatusMessage) :
  candidates SVC_INBOX (descriptors s) = [d] ->
  status_type st = ST_SUCCESS ->
  (forall m, transport_send (sent s) (sd_address d) (ReqInbox m) = Ok (MsgStatus st)) ->
  exists m,
    push (client := SessionClient transport_send discovery_trigger supported_uri)
      pack_content_binding get_utc_now payload binding names timestamp None s
    = (Ok tt,
       {| descriptors := descriptors s;
          discovery_address := discovery_address s;
          id_counter := N.succ (id_counter s);
          sent := sent s ++ [(sd_address d, ReqInbox m)] |}) /\
    map content (im_content_blocks m) = [payload].
Proof.
  intros Hknown Hsuccess Hserver.
  eexists. unfold push. cbn -[candidates]. unfold execute, resolve.
  cbn -[candidates pick]. rewrite Hknown. unfold pick. rewrite Hknown.
  cbn. rewrite Hserver, Hsuccess. cbn.
  split; reflexivity.
Qed.

End Push.

Lemma push_success_acknowledged_witness :
  exists s',
    push (client := Simulation.client Simulation.two_parts) pack_binding 7%Z
      "x" (BindingStr "urn:test") None None None Simulation.start
    = (Ok tt, s').
Proof.
  destruct (@push_success_acknowledged
              (Simulation.transport Simulation.two_parts) Simulation.no_discovery
              Simulation.http_uri pack_binding 7%Z "x" (BindingStr "urn:test") None None
              Simulation.start
              {| sd_kind := SVC_INBOX; sd_address := "https://a/inbox";
                 sd_message_bindings := []; sd_protocol_bindings := [] |}
              Simulation.success)
    as [m [Hpush _]].
  - reflexivity.
  - reflexivity.
  - intros m. reflexivity.
  - eexists. exact Hpush.
Defined.

(** ** Runs against the simulated server *)

Lemma poll_requests_parts_lazily_witness :
  exists bs fin g tr w',
    poll_run (client := Traced (Simulation.client Simulation.two_parts))
      pack_bindings convert_block 1 3 (Simulation.feed None None)
      ([], Simulation.start) = Some (bs, fin, g, (tr, w')) /\
    exists earlier last ess es,
      exchanges tr = earlier ++ [last] /\
      Forall2 (yields_all convert_block) earlier ess /\
      yields_first convert_block last es /\
      bs = List.concat ess ++ es /\
      (fin = Suspended -> es <> []).
Proof.
  eexists _, _, _, _, _. split.
  - cbv. reflexivity.
  - eapply (@poll_requests_parts_lazily session
              (Simulation.client Simulation.two_parts) pack_bindings convert_block 1 3
              (Simulation.feed None None) Simulation.start).
    + lia.
    + reflexivity.
Defined.

Section Loop.

Variable later_part : Z -> result message.
Variable part2 : PollResponse.
Hypothesis later_part_2 : later_part 2 = Ok (MsgPollResponse part2).
Hypothesis part2_blocks : content_blocks part2 = [Simulation.wire "c"].

Lemma requested_parts_app (l1 l2 : list (string * request)) :
  Simulation.requested_parts (l1 ++ l2)
  = Simulation.requested_parts l1 ++ Simulation.requested_parts l2.
Proof.
  induction l1 as [| [target [p | f | m]] l1 IH]; cbn; [reflexivity | | |];
    now rewrite IH.
Qed.

(** A step of the loop: part 2 is asked for, and its block is yielded, with
    the generator back where it was. *)
Lemma looping_next (k : N) (l : list (string * request)) :
  exists f,
    poll_next (client := Simulation.client later_part) pack_bindings convert_block 1
      Simulation.looping (Simulation.session_at k l)
    = Some (Yielded (Simulation.block "c"), Simulation.looping,
            Simulation.session_at (N.succ k) (l ++ [("https://a/poll", ReqFulfillment f)])) /\
    fr_result_part_number f = 2%Z.
Proof.
  eexists. unfold Simulation.looping. cbn. rewrite later_part_2. cbn.
  rewrite part2_blocks. cbn. split; reflexivity.
Qed.

Lemma looping_take (n : nat) :
  forall (k : N) (l : list (string * request)),
  exists k' l',
    poll_take (client := Simulation.client later_part) pack_bindings convert_block 1 n
      Simulation.looping (Simulation.session_at k l)
    = Some (repeat (Simulation.block "c") n, Suspended, Simulation.looping,
            Simulation.session_at k' l') /\
    Simulation.requested_parts l' = Simulation.requested_parts l ++ repeat 2%Z n.
Proof.
  induction n as [| n IH]; intros k l.
  - exists k, l. split; [reflexivity | now rewrite app_nil_r].
  - destruct (looping_next k l) as (f & Hnext & Hpart).
    destruct (IH (N.succ k) (l ++ [("https://a/poll", ReqFulfillment f)]))
      as (k' & l' & Htake & Hparts).
    exists k', l'. rewrite poll_take_S, Hnext, Htake. split; [reflexivity |].
    rewrite Hparts, requested_parts_app. cbn. rewrite Hpart.
    now rewrite <- app_assoc.
Qed.

(** The first three steps of a poll of ["feed-1"]: the two blocks of part 1
    and the block of part 2, after which the generator is in the loop. *)
Lemma first_three_steps :
  exists l,
    poll_run (client := Simulation.client later_part) pack_bindings convert_block 1 3
      (Simulation.feed None None) Simulation.start
    = Some ([Simulation.block "a"; Simulation.block "b"; Simulation.block "c"],
            Suspended, Simulation.looping, Simulation.session_at 2 l) /\
    Simulation.requested_parts l = [2%Z].
Proof.
  eexists. unfold poll_run, poll. cbn. rewrite later_part_2. cbn.
  rewrite part2_blocks. cbn. split; reflexivity.
Qed.

Lemma poll_take_app (fuel n m : nat) :
  forall (g g1 g2 : poll_gen) (w w1 w2 : session) (bs1 bs2 : list ContentBlock)
         (fin : ending),
  poll_take (client := Simulation.client later_part) pack_bindings convert_block fuel n g w
    = Some (bs1, Suspended, g1, w1) ->
  poll_take (client := Simulation.client later_part) pack_bindings convert_block fuel m g1 w1
    = Some (bs2, fin, g2, w2) ->
  poll_take (client := Simulation.client later_part) pack_bindings convert_block fuel (n + m) g w
    = Some (bs1 ++ bs2, fin, g2, w2).
Proof.
  induction n as [| n IH]; intros g g1 g2 w w1 w2 bs1 bs2 fin Hn Hm.
  - cbn in Hn. same_run Hn. exact Hm.
  - cbn [Nat.add]. rewrite poll_take_S in Hn. rewrite poll_take_S.
    destruct (poll_next pack_bindings convert_block fuel g w)
      as [[[[blk | e |] g0] w0] |]; try discriminate.
    destruct (poll_take pack_bindings convert_block fuel n g0 w0)
      as [[[[bs0 fin0] g3] w3] |] eqn:Htake; [| discriminate].
    same_run Hn. erewrite IH by (exact Htake || exact Hm). reflexivity.
Qed.

(** Every run of three steps or more: the blocks of part 1, then the block
    of part 2 once for each further step, part 2 being asked for each
    time. *)
Lemma poll_keeps_asking_part_2 (n : nat) :
  exists w,
    poll_run (client := Simulation.client later_part) pack_bindings convert_block 1 (3 + n)
      (Simulation.feed None None) Simulation.start
    = Some ([Simulation.block "a"; Simulation.block "b"]
              ++ repeat (Simulation.block "c") (S n),
            Suspended, Simulation.looping, w) /\
    Simulation.requested_parts (sent w) = repeat 2%Z (S n).
Proof.
  destruct first_three_steps as (l & Hthree & Hl).
  destruct (looping_take n 2 l) as (k' & l' & Htake & Hparts).
  exists (Simulation.session_at k' l').
  unfold poll_run, poll in *. split.
  - erewrite poll_take_app by (exact Hthree || exact Htake). reflexivity.
  - cbn [sent Simulation.session_at]. now rewrite Hparts, Hl.
Qed.

End Loop.

(** C1, on the code.  The server holds two parts: part 1 (blocks a and b,
    more to come) and part 2 (block c, the last).  A consumer that pulls
    [3 + n] blocks gets them all: a, b, and then c once for each further
    step, the generator still being suspended.  The sequence is not a, b, c:
    the loop tests the first response again and fetches part 2 again. *)
Theorem poll_two_parts_repeats_part_2 (n : nat) :
  exists w,
    poll_run (client := Simulation.client Simulation.two_parts)
      pack_bindings convert_block 1 (3 + n) (Simulation.feed None None) Simulation.start
    = Some ([Simulation.block "a"; Simulation.block "b"]
              ++ repeat (Simulation.block "c") (S n),
            Suspended, Simulation.looping, w).
Proof.
  destruct (@poll_keeps_asking_part_2 Simulation.two_parts _ eq_refl eq_refl n)
    as (w & Hrun & _).
  now exists w.
Qed.

(** C2, on the code.  With the same server, which reports [more = false]
    with part 2, the sequence has no end: for every [n] the consumer gets
    [n] blocks and the generator is suspended, not exhausted. *)
Theorem poll_two_parts_never_ends (n : nat) :
  exists bs g w,
    poll_run (client := Simulation.client Simulation.two_parts)
      pack_bindings convert_block 1 n (Simulation.feed None None) Simulation.start
    = Some (bs, Suspended, g, w) /\
    List.length bs = n.
Proof.
  destruct n as [| [| [| n]]]; try (eexists _, _, _; split; reflexivity).
  destruct (@poll_keeps_asking_part_2 Simulation.two_parts _ eq_refl eq_refl n)
    as (w & Hrun & _).
  eexists _, _, w. split; [exact Hrun |].
  rewrite length_app, repeat_length. reflexivity.
Qed.

(** C3, on the code.  The server answers every fulfilment request with a
    part that reports more to come.  The fulfilment requests of a run all
    ask for part 2: the part number is that of the first response plus one
    each time, not that of the last response received. *)
Theorem poll_fulfilment_requests_ask_part_2 (n : nat) :
  exists bs g w,
    poll_run (client := Simulation.client Simulation.endless)
      pack_bindings convert_block 1 (3 + n) (Simulation.feed None None) Simulation.start
    = Some (bs, Suspended, g, w) /\
    Simulation.requested_parts (sent w) = repeat 2%Z (S n).
Proof.
  destruct (@poll_keeps_asking_part_2 Simulation.endless _ eq_refl eq_refl n)
    as (w & Hrun & Hparts).
  eexists _, _, w. split; [exact Hrun | exact Hparts].
Qed.

(** * Further properties of the operations *)

(** ** Sequences of one part, and finished generators *)

Section Sequences.

Context {W : Type} {client : AbstractClient W}.
Variable pack_content_bindings :
  option (list binding_arg) -> option (list tm11_ContentBinding).
Variable to_content_block_entity : tm11_ContentBlock -> result ContentBlock.

(** The first [for] loop when nothing is to come after it: the consumer gets
    the blocks left, and then the end. *)
Lemma poll_take_last_part (fuel n : nat) :
  forall (cn : string) (u : option string) (r : PollResponse)
         (rest : list tm11_ContentBlock) (es : list ContentBlock) (w : W),
  more r = false ->
  map to_content_block_entity rest = map Ok es ->
  exists g,
    poll_take pack_content_bindings to_content_block_entity (S fuel) n
      (PollFirst cn u r rest) w
    = Some (firstn n es,
            (if (n <=? List.length es)%nat then Suspended else Exhausted), g, w).
Proof.
  induction n as [| n IH]; intros cn u r rest es w Hmore Hrest.
  - eexists. reflexivity.
  - rewrite poll_take_S. destruct rest as [| b rest], es as [| e es];
      cbn in Hrest; try discriminate.
    + cbn [poll_next poll_first poll_while]. rewrite Hmore.
      eexists. reflexivity.
    + injection Hrest as Hb Hrest. cbn [poll_next poll_first]. rewrite Hb.
      destruct (IH cn u r rest es w Hmore Hrest) as [g Hg]. rewrite Hg.
      eexists. reflexivity.
Qed.

Lemma poll_while_finishes (fuel : nat) (cn : string) (u : option string)
    (r : PollResponse) :
  forall (w w' : W) (o : outcome) (g : poll_gen),
  poll_while to_content_block_entity fuel cn u r w = Some (o, g, w') ->
  (forall b, o <> Yielded b) ->
  g = PollFinished.
Proof.
  induction fuel as [| fuel IH]; intros w w' o g; cbn [poll_while];
    [discriminate |].
  destruct (more r).
  - unfold fulfilment.
    destruct (fulfilment_next to_content_block_entity
                (FulCreated cn (result_id r) (result_part_number r + 1) u) w)
      as [[[blk | e |] g1] w1].
    + intros Hrun Hend. same_run Hrun. now destruct (Hend blk).
    + intros Hrun _. now same_run Hrun.
    + apply IH.
  - intros Hrun _. now same_run Hrun.
Qed.

Lemma poll_next_finishes (fuel : nat) (g g' : poll_gen) (w w' : W) (o : outcome) :
  poll_next pack_content_bindings to_content_block_entity fuel g w = Some (o, g', w') ->
  (forall b, o <> Yielded b) ->
  g' = PollFinished.
Proof.
  assert (Hfirst : forall cn u r rest,
            poll_first to_content_block_entity fuel cn u r rest w = Some (o, g', w') ->
            (forall b, o <> Yielded b) -> g' = PollFinished).
  { intros cn u r [| b rest]; cbn [poll_first].
    - apply poll_while_finishes.
    - destruct (to_content_block_entity b) as [blk | e]; intros Hrun Hend;
        same_run Hrun; [now destruct (Hend blk) | reflexivity]. }
  destruct g as [a | cn u r rest | cn u r inner |]; cbn [poll_next].
  - destruct (_generate_id w) as [m w1].
    destruct (_execute_request (ReqPoll (poll_request pack_content_bindings m a))
                (uri a) SVC_POLL w1) as [[[r | st] | e] w2].
    + intros Hrun Hend.
      destruct (content_blocks r) as [| b rest]; cbn [poll_first] in Hrun.
      * eapply poll_while_finishes; [exact Hrun | exact Hend].
      * destruct (to_content_block_entity b) as [blk | e];
          same_run Hrun; [now destruct (Hend blk) | reflexivity].
    + intros Hrun _. now same_run Hrun.
    + intros Hrun _. now same_run Hrun.
  - apply Hfirst.
  - destruct (fulfilment_next to_content_block_entity inner w)
      as [[[blk | e |] g1] w1].
    + intros Hrun Hend. same_run Hrun. now destruct (Hend blk).
    + intros Hrun _. now same_run Hrun.
    + apply poll_while_finishes.
  - intros Hrun _. now same_run Hrun.
Qed.

(** X7.  A step of [poll] that ends the sequence or raises leaves the
    generator finished: whatever is asked of it afterwards, it gives no
    block, raises nothing and leaves the client as it is, so a request that
    failed is not sent again. *)
Theorem poll_finished_stays_finished (fuel fuel' n : nat) (g g' : poll_gen)
    (w w' : W) (o : outcome) :
  poll_next pack_content_bindings to_content_block_entity fuel g w = Some (o, g', w') ->
  (forall b, o <> Yielded b) ->
  poll_take pack_content_bindings to_content_block_entity fuel' (S n) g' w'
  = Some ([], Exhausted, PollFinished, w').
Proof.
  intros Hrun Hend. rewrite (poll_next_finishes _ _ _ Hrun Hend). reflexivity.
Qed.

End Sequences.

(** ** The loop of [poll] and [fulfilment] *)

Section Loops.

Context {W : Type} {client : AbstractClient W}.
Variable pack_content_bindings :
  option (list binding_arg) -> option (list tm11_ContentBinding).
Variable to_content_block_entity : tm11_ContentBlock -> result ContentBlock.

(** Inside the loop, [poll] hands on what its [fulfilment] generator gives,
    as long as that generator is not at its end. *)
Lemma poll_take_inner (fuel k : nat) (cn : string) (u : option string)
    (r : PollResponse) :
  forall (inner g' : fulfilment_gen) (w w' : W) (bs : list ContentBlock)
         (fin : ending),
  fulfilment_take to_content_block_entity k inner w = (bs, fin, g', w') ->
  fin <> Exhausted ->
  exists g,
    poll_take pack_content_bindings to_content_block_entity fuel k
      (PollMore cn u r inner) w
    = Some (bs, fin, g, w').
Proof.
  induction k as [| k IH]; intros inner g' w w' bs fin Hrun Hfin.
  - cbn in Hrun. same_run Hrun. eexists. reflexivity.
  - rewrite poll_take_S. cbn [fulfilment_take] in Hrun. cbn [poll_next].
    destruct (fulfilment_next to_content_block_entity inner w)
      as [[[blk | e |] g1] w1].
    + destruct (fulfilment_take to_content_block_entity k g1 w1)
        as [[[bs1 fin1] g2] w2] eqn:Htake.
      same_run Hrun.
      destruct (IH _ _ _ _ _ _ Htake Hfin) as [g Hg]. rewrite Hg.
      eexists. reflexivity.
    + same_run Hrun. eexists. reflexivity.
    + same_run Hrun. now destruct Hfin.
Qed.

(** X3.  When the blocks of the first response are all yielded and that
    response reports more, what [poll] gives next is what [fulfilment] gives
    when called with the collection name and address of the poll, the
    result id of the first response and its part number plus one: the same
    blocks, the same exception if it fails, the same state of the client.
    (At the end of that part the two differ: [fulfilment] stops and [poll]
    goes round its loop.) *)
Theorem poll_continues_as_fulfilment (fuel k : nat) (cn : string)
    (u : option string) (r : PollResponse) (g' : fulfilment_gen) (w w' : W)
    (bs : list ContentBlock) (fin : ending) :
  more r = true ->
  fulfilment_run to_content_block_entity k cn (result_id r)
    (result_part_number r + 1) u w = (bs, fin, g', w') ->
  fin <> Exhausted ->
  exists g,
    poll_take pack_content_bindings to_content_block_entity (S fuel) k
      (PollFirst cn u r []) w
    = Some (bs, fin, g, w').
Proof.
  intros Hmore Hrun Hfin. unfold fulfilment_run, fulfilment in Hrun.
  destruct k as [| k].
  - cbn in Hrun. same_run Hrun. eexists. reflexivity.
  - rewrite poll_take_S. cbn [fulfilment_take] in Hrun.
    cbn [poll_next poll_first poll_while]. rewrite Hmore. unfold fulfilment.
    destruct (fulfilment_next to_content_block_entity
                (FulCreated cn (result_id r) (result_part_number r + 1) u) w)
      as [[[blk | e |] g1] w1].
    + destruct (fulfilment_take to_content_block_entity k g1 w1)
        as [[[bs1 fin1] g2] w2] eqn:Htake.
      same_run Hrun.
      destruct (@poll_take_inner (S fuel) k cn u r g1 g' w1 w' bs1 fin Htake Hfin)
        as [g Hg].
      rewrite Hg. eexists. reflexivity.
    + same_run Hrun. eexists. reflexivity.
    + same_run Hrun. now destruct Hfin.
Qed.


End Loops.

Lemma poll_finished_stays_finished_witness :
  poll_take (client := scripted one_part) pack_bindings convert_block 1 2
    PollFinished 0%N
  = Some ([], Exhausted, PollFinished, 0%N).
Proof.
  apply (@poll_finished_stays_finished N (scripted one_part) pack_bindings
           convert_block 1 1 1
           (PollFirst "feed-1" None
              {| content_blocks := []; more := false;
                 result_id := "r1"; result_part_number := 1 |} [])
           PollFinished 0%N 0%N StopIteration).
  - reflexivity.
  - intros b. discriminate.
Defined.

Lemma poll_continues_as_fulfilment_witness :
  exists g,
    poll_take (client := Simulation.client Simulation.two_parts)
      pack_bindings convert_block 1 1
      (PollFirst "feed-1" None Simulation.part1 []) Simulation.start
    = Some ([Simulation.block "c"], Suspended, g,
            Simulation.session_at 1
              [("https://a/poll",
                ReqFulfillment {| fr_message_id := "0";
                                  fr_collection_name := "feed-1";
                                  fr_result_id := "r1";
                                  fr_result_part_number := 2 |})]).
Proof.
  eapply (@poll_continues_as_fulfilment session
            (Simulation.client Simulation.two_parts) pack_bindings convert_block
            0 1 "feed-1" None Simulation.part1 (FulSuspended [])
            Simulation.start).
  - reflexivity.
  - reflexivity.
  - discriminate.
Defined.


(** ** The log of a poll *)

Section Logs.

Context {W : Type} {client : AbstractClient W}.
Variable pack_content_bindings :
  option (list binding_arg) -> option (list tm11_ContentBinding).
Variable to_content_block_entity : tm11_ContentBlock -> result ContentBlock.

(** X1.  The poll request is answered by a response that reports nothing
    more, and all its blocks convert.  Then the sequence is that of these
    blocks, in order, and it ends after them: a consumer asking for [S n]
    blocks gets the first [S n] of them, the end of the sequence if there
    are fewer, and the client made one identifier and one exchange, the
    poll request, whatever number of blocks was asked for. *)
Theorem poll_single_part (fuel n : nat) (a : poll_args) (w : W)
    (r : PollResponse) (es : list ContentBlock) :
  let message_id := fst (_generate_id w) in
  let request := ReqPoll (poll_request pack_content_bindings message_id a) in
  let answer := _execute_request request (uri a) SVC_POLL (snd (_generate_id w)) in
  fst answer = Ok (MsgPollResponse r) ->
  more r = false ->
  map to_content_block_entity (content_blocks r) = map Ok es ->
  exists g,
    poll_run pack_content_bindings to_content_block_entity (S fuel) (S n) a ([], w)
    = Some (firstn (S n) es,
            (if (S n <=? List.length es)%nat then Suspended else Exhausted),
            g,
            ([EvId message_id; EvRequest request (uri a) SVC_POLL (fst answer)],
             snd answer)).
Proof.
  intros message_id request answer Hanswer Hmore Hblocks.
  destruct (@poll_take_last_part (list event * W) _ pack_content_bindings
              to_content_block_entity fuel (S n) (collection_name a) (uri a) r
              (content_blocks r) es
              ([EvId message_id; EvRequest request (uri a) SVC_POLL (fst answer)],
               snd answer) Hmore Hblocks) as [g Hg].
  exists g. rewrite <- Hg.
  unfold poll_run, poll. rewrite !poll_take_S, poll_next_created.
  fold message_id. fold request. fold answer. rewrite Hanswer. reflexivity.
Qed.

(** The first step of a [fulfilment] generator adds to the log an
    identifier and the fulfilment request that carries it. *)
Lemma fulfilment_next_created_log (cn rid : string) (pn : Z) (u : option string)
    (tr tr' : list event) (w w' : W) (o : outcome) (g' : fulfilment_gen) :
  fulfilment_next to_content_block_entity (FulCreated cn rid pn u) (tr, w)
    = (o, g', (tr', w')) ->
  exists f reply,
    tr' = tr ++ [EvId (fr_message_id f); EvRequest (ReqFulfillment f) u SVC_POLL reply] /\
    fr_collection_name f = cn /\
    fr_result_id f = rid /\
    (forall b, o = Yielded b -> exists rest, g' = FulSuspended rest).
Proof.
  cbn [fulfilment_next]. rewrite traced_generate_id, traced_execute_request.
  rewrite <- app_assoc. cbn [app].
  set (f := {| fr_message_id := fst (_generate_id w);
               fr_collection_name := cn;
               fr_result_id := rid;
               fr_result_part_number := pn |}).
  destruct (fst (_execute_request (ReqFulfillment f) u SVC_POLL (snd (_generate_id w))))
    as [[r | st] | e]; cbn [get_content_blocks].
  - destruct (content_blocks r) as [| b rest]; cbn [fulfilment_blocks];
      [| destruct (to_content_block_entity b) as [blk | e]];
      intros Hrun; same_run Hrun; exists f; eexists;
      (split; [reflexivity |]); (split; [reflexivity |]); (split; [reflexivity |]);
      intros b' Hb'; try discriminate Hb'; eauto.
  - intros Hrun. same_run Hrun. exists f. eexists.
    repeat (split; [reflexivity |]). intros b' Hb'. discriminate Hb'.
  - intros Hrun. same_run Hrun. exists f. eexists.
    repeat (split; [reflexivity |]). intros b' Hb'. discriminate Hb'.
Qed.

(** The loop only adds fulfilment exchanges for the collection, the address
    and the result id it was entered with. *)
Lemma poll_while_log (fuel : nat) (cn : string) (u : option string)
    (r : PollResponse) (head : list event) :
  forall (rest tr' : list event) (w w' : W) (o : outcome) (g' : poll_gen),
  fulfilment_log cn u (result_id r) rest ->
  poll_while to_content_block_entity fuel cn u r (head ++ rest, w)
    = Some (o, g', (tr', w')) ->
  exists rest',
    tr' = head ++ rest' /\
    fulfilment_log cn u (result_id r) rest' /\
    match o with
    | Yielded _ => exists blocks, g' = PollMore cn u r (FulSuspended blocks)
    | _ => g' = PollFinished
    end.
Proof.
  induction fuel as [| fuel IH]; intros rest tr' w w' o g' Hlog;
    cbn [poll_while]; [discriminate |].
  destruct (more r).
  - unfold fulfilment.
    destruct (fulfilment_next to_content_block_entity
                (FulCreated cn (result_id r) (result_part_number r + 1) u)
                (head ++ rest, w)) as [[o1 g1] [tr1 w1]] eqn:Hnext.
    apply fulfilment_next_created_log in Hnext.
    destruct Hnext as (f & reply & -> & Hcn & Hrid & Hyield).
    rewrite <- app_assoc.
    assert (Hlog' : fulfilment_log cn u (result_id r)
                      (rest ++ [EvId (fr_message_id f);
                                EvRequest (ReqFulfillment f) u SVC_POLL reply]))
      by now constructor.
    destruct o1 as [blk | e |].
    + intros Hrun. same_run Hrun. eexists. split; [reflexivity |].
      split; [assumption |]. destruct (Hyield blk eq_refl) as [blocks ->]. eauto.
    + intros Hrun. same_run Hrun. eexists. split; [reflexivity |].
      split; [assumption | reflexivity].
    + now apply IH.
  - intros Hrun. same_run Hrun. exists rest. now repeat split.
Qed.

(** The log of a poll that has made its first step, the generator being
    [g]: the identifier and the poll request that carries it, and then
    fulfilment exchanges only. *)
Lemma poll_next_log (fuel : nat) (a : poll_args) (g g' : poll_gen)
    (m : string) (reply : result message) (rest tr' : list event)
    (w w' : W) (o : outcome) :
  poll_state_after a reply g ->
  match reply with
  | Ok (MsgPollResponse r) =>
      fulfilment_log (collection_name a) (uri a) (result_id r) rest
  | _ => rest = []
  end ->
  poll_next pack_content_bindings to_content_block_entity fuel g
    (EvId m :: EvRequest (ReqPoll (poll_request pack_content_bindings m a))
                 (uri a) SVC_POLL reply :: rest, w)
    = Some (o, g', (tr', w')) ->
  exists rest',
    tr' = EvId m :: EvRequest (ReqPoll (poll_request pack_content_bindings m a))
                      (uri a) SVC_POLL reply :: rest' /\
    match reply with
    | Ok (MsgPollResponse r) =>
        fulfilment_log (collection_name a) (uri a) (result_id r) rest'
    | _ => rest' = []
    end /\
    poll_state_after a reply g'.
Proof.
  set (head := [EvId m; EvRequest (ReqPoll (poll_request pack_content_bindings m a))
                          (uri a) SVC_POLL reply]).
  change (EvId m :: EvRequest (ReqPoll (poll_request pack_content_bindings m a))
                      (uri a) SVC_POLL reply :: rest) with (head ++ rest).
  assert (Hwhile : forall cn u r,
            cn = collection_name a -> u = uri a -> reply = Ok (MsgPollResponse r) ->
            fulfilment_log cn u (result_id r) rest ->
            poll_while to_content_block_entity fuel cn u r (head ++ rest, w)
              = Some (o, g', (tr', w')) ->
            exists rest',
              tr' = head ++ rest' /\
              match reply with
              | Ok (MsgPollResponse r) =>
                  fulfilment_log (collection_name a) (uri a) (result_id r) rest'
              | _ => rest' = []
              end /\
              poll_state_after a reply g').
  { intros cn u r -> -> -> Hlog Hrun.
    eapply poll_while_log in Hrun; [| exact Hlog].
    destruct Hrun as (rest' & -> & Hlog' & Hg').
    exists rest'. split; [reflexivity |]. split; [assumption |].
    destruct o as [blk | e |]; [destruct Hg' as [blocks ->] | rewrite Hg' ..];
      cbn; auto. }
  destruct g as [a0 | cn u r blocks | cn u r [? ? ? ? | blocks |] |];
    cbn [poll_state_after]; intros Hstate Hlog; try contradiction.
  - destruct Hstate as (-> & -> & ->).
    destruct blocks as [| b blocks]; cbn [poll_next poll_first].
    + now apply Hwhile.
    + destruct (to_content_block_entity b) as [blk | e]; intros Hrun;
        same_run Hrun; exists rest; now repeat split.
  - destruct Hstate as (-> & -> & ->).
    destruct blocks as [| b blocks];
      cbn [poll_next fulfilment_next fulfilment_blocks].
    + now apply Hwhile.
    + destruct (to_content_block_entity b) as [blk | e]; intros Hrun;
        same_run Hrun; exists rest; now repeat split.
  - cbn [poll_next]. intros Hrun. same_run Hrun. exists rest. now repeat split.
Qed.

Lemma poll_take_log (fuel n : nat) (a : poll_args) (m : string)
    (reply : result message) :
  forall (g g' : poll_gen) (rest tr' : list event) (w w' : W)
         (bs : list ContentBlock) (fin : ending),
  poll_state_after a reply g ->
  match reply with
  | Ok (MsgPollResponse r) =>
      fulfilment_log (collection_name a) (uri a) (result_id r) rest
  | _ => rest = []
  end ->
  poll_take pack_content_bindings to_content_block_entity fuel n g
    (EvId m :: EvRequest (ReqPoll (poll_request pack_content_bindings m a))
                 (uri a) SVC_POLL reply :: rest, w)
    = Some (bs, fin, g', (tr', w')) ->
  exists rest',
    tr' = EvId m :: EvRequest (ReqPoll (poll_request pack_content_bindings m a))
                      (uri a) SVC_POLL reply :: rest' /\
    match reply with
    | Ok (MsgPollResponse r) =>
        fulfilment_log (collection_name a) (uri a) (result_id r) rest'
    | _ => rest' = []
    end.
Proof.
  induction n as [| n IH]; intros g g' rest tr' w w' bs fin Hstate Hlog.
  - cbn [poll_take]. intros Hrun. same_run Hrun. exists rest. now split.
  - rewrite poll_take_S.
    destruct (poll_next pack_content_bindings to_content_block_entity fuel g _)
      as [[[o g1] [tr1 w1]] |] eqn:Hnext; [| discriminate].
    eapply poll_next_log in Hnext; [| exact Hstate | exact Hlog].
    destruct Hnext as (rest1 & -> & Hlog1 & Hstate1).
    destruct o as [blk | e |].
    + destruct (poll_take pack_content_bindings to_content_block_entity fuel n g1 _)
        as [[[[bs1 fin1] g2] [tr2 w2]] |] eqn:Htake; [| discriminate].
      intros Hrun. same_run Hrun.
      eapply IH; [exact Hstate1 | exact Hlog1 | exact Htake].
    + intros Hrun. same_run Hrun. exists rest1. now split.
    + intros Hrun. same_run Hrun. exists rest1. now split.
Qed.

(** X2.  The log of any run of [poll] in which the consumer asked for a
    block: first an identifier and the poll request built from the arguments
    with that identifier, sent to the caller's address of the poll service.
    If the reply is not a poll response nothing else is sent.  Otherwise
    every later exchange is an identifier followed by a fulfilment request
    that carries it, for the caller's collection and the result id of that
    first response, sent to the same address of the poll service. *)
Theorem poll_log_shape (fuel n : nat) (a : poll_args) (w w' : W)
    (bs : list ContentBlock) (fin : ending) (g : poll_gen) (tr : list event) :
  0 < n ->
  poll_run pack_content_bindings to_content_block_entity fuel n a ([], w)
    = Some (bs, fin, g, (tr, w')) ->
  exists m reply rest,
    tr = EvId m :: EvRequest (ReqPoll (poll_request pack_content_bindings m a))
                     (uri a) SVC_POLL reply :: rest /\
    pr_message_id (poll_request pack_content_bindings m a) = m /\
    match reply with
    | Ok (MsgPollResponse r) =>
        fulfilment_log (collection_name a) (uri a) (result_id r) rest
    | _ => rest = []
    end.
Proof.
  intros Hn. destruct n as [| n]; [lia |].
  assert (Hid : forall m, pr_message_id (poll_request pack_content_bindings m a) = m).
  { intros m. unfold poll_request.
    destruct (truthy_str (subscription_id a)); reflexivity. }
  unfold poll_run, poll. rewrite poll_take_S, poll_next_created. cbn [app].
  set (m := fst (_generate_id w)).
  set (answer := _execute_request _ (uri a) SVC_POLL (snd (_generate_id w))).
  destruct (fst answer) as [[r | st] | e] eqn:Hanswer.
  - change (poll_first to_content_block_entity fuel (collection_name a) (uri a) r
              (content_blocks r)
              ([EvId m; EvRequest (ReqPoll (poll_request pack_content_bindings m a))
                          (uri a) SVC_POLL (Ok (MsgPollResponse r))], snd answer))
      with (poll_next pack_content_bindings to_content_block_entity fuel
              (PollFirst (collection_name a) (uri a) r (content_blocks r))
              ([EvId m; EvRequest (ReqPoll (poll_request pack_content_bindings m a))
                          (uri a) SVC_POLL (Ok (MsgPollResponse r))], snd answer)).
    rewrite <- poll_take_S. intros Hrun.
    apply poll_take_log in Hrun; [| now cbn | constructor].
    destruct Hrun as (rest & -> & Hlog). exists m, (Ok (MsgPollResponse r)), rest.
    now repeat split.
  - intros Hrun. same_run Hrun. exists m, (Ok (MsgStatus st)), []. now repeat split.
  - intros Hrun. same_run Hrun. exists m, (Raise e), []. now repeat split.
Qed.

End Logs.

Lemma poll_single_part_witness :
  exists g tr w',
    poll_run (client := Traced (scripted one_part)) pack_bindings convert_block 1 3
      (Simulation.feed None None) ([], 0%N)
    = Some ([Simulation.block "a"; Simulation.block "b"], Exhausted, g, (tr, w')).
Proof.
  destruct (@poll_single_part N (scripted one_part) pack_bindings convert_block 0 2
              (Simulation.feed None None) 0%N
              {| content_blocks := [Simulation.wire "a"; Simulation.wire "b"];
                 more := false;
                 result_id := "r1";
                 result_part_number := 1 |}
              [Simulation.block "a"; Simulation.block "b"]
              eq_refl eq_refl eq_refl) as [g Hg].
  exists g. eexists _, _. exact Hg.
Defined.

Lemma poll_log_shape_witness :
  exists bs fin g tr w',
    poll_run (client := Traced (Simulation.client Simulation.two_parts))
      pack_bindings convert_block 1 4 (Simulation.feed None None)
      ([], Simulation.start) = Some (bs, fin, g, (tr, w')) /\
    exists m reply rest,
      tr = EvId m :: EvRequest (ReqPoll (poll_request pack_bindings m
                                           (Simulation.feed None None)))
                       None SVC_POLL reply :: rest /\
      pr_message_id (poll_request pack_bindings m (Simulation.feed None None)) = m /\
      match reply with
      | Ok (MsgPollResponse r) => fulfilment_log "feed-1" None (result_id r) rest
      | _ => rest = []
      end.
Proof.
  eexists _, _, _, _, _. split.
  - cbv. reflexivity.
  - eapply (@poll_log_shape session (Simulation.client Simulation.two_parts)
              pack_bindings convert_block 1 4 (Simulation.feed None None)
              Simulation.start).
    + lia.
    + reflexivity.
Defined.

(** ** Arguments that are not looked at *)

(** X4.  With a subscription id that is true for Python, the request of
    [poll] is made of the collection name, the date range and the
    subscription id alone: two calls that agree on these send the same
    request, whatever their count-only flag, inbox service, content bindings
    and packing of content bindings. *)
Theorem poll_subscription_ignores_filters
    (pack pack' : option (list binding_arg) -> option (list tm11_ContentBinding))
    (message_id : string) (a a' : poll_args) :
  truthy_str (subscription_id a) = true ->
  subscription_id a' = subscription_id a ->
  collection_name a' = collection_name a ->
  begin_date a' = begin_date a ->
  end_date a' = end_date a ->
  poll_request pack message_id a = poll_request pack' message_id a'.
Proof.
  intros Htrue Hid Hname Hbegin Hend. unfold poll_request.
  rewrite Hid, Htrue, Hname, Hbegin, Hend. reflexivity.
Qed.

Lemma poll_subscription_ignores_filters_witness :
  poll_request pack_bindings "1" (Simulation.feed (Some "s1") (Some 5%Z))
  = poll_request (fun _ => None) "1"
      {| collection_name := "feed-1";
         begin_date := Some 5%Z;
         end_date := None;
         count_only := true;
         subscription_id := Some "s1";
         inbox_service :=
           Some {| protocol := "urn:http"; address := "https://me/inbox";
                   message_bindings := [] |};
         content_bindings := Some [BindingStr "urn:test"];
         uri := Some "https://a/poll" |}.
Proof.
  apply poll_subscription_ignores_filters; reflexivity.
Defined.

(** ** One message for a push *)

Section PushLog.

Context {W : Type} {client : AbstractClient W}.
Variable pack_content_binding : binding_arg -> tm11_ContentBinding.
Variable get_utc_now : datetime.

(** X6.  For any client, [push] generates one identifier and makes one
    exchange, with the inbox service at the caller's address.  The message
    carries that identifier and one content block: the payload as given, the
    packed binding, and as timestamp the one given or else the current time.
    The destination collections are the names given, none when the argument
    is left out or empty.  The reply is not looked at: [push] returns
    normally for any reply, and raises what the dispatcher raises. *)
Theorem push_one_exchange (payload : string) (binding : binding_arg)
    (names : option (list string)) (timestamp : option datetime)
    (u : option string) (tr : list event) (w : W) :
  exists m,
    let answer := _execute_request (ReqInbox m) u SVC_INBOX (snd (_generate_id w)) in
    push pack_content_binding get_utc_now payload binding names timestamp u (tr, w)
    = (match fst answer with Ok _ => Ok tt | Raise e => Raise e end,
       (tr ++ [EvId (fst (_generate_id w));
               EvRequest (ReqInbox m) u SVC_INBOX (fst answer)],
        snd answer)) /\
    im_message_id m = fst (_generate_id w) /\
    im_content_blocks m =
      [{| content := payload;
          content_binding := Some (pack_content_binding binding);
          timestamp_label :=
            Some (match timestamp with Some t => t | None => get_utc_now end);
          signature := None |}] /\
    im_destination_collection_names m =
      match names with Some l => l | None => [] end.
Proof.
  exists {| im_message_id := fst (_generate_id w);
            im_content_blocks :=
              [{| content := payload;
                  content_binding := Some (pack_content_binding binding);
                  timestamp_label :=
                    Some (match timestamp with Some t => t | None => get_utc_now end);
                  signature := None |}];
            im_destination_collection_names :=
              match names with Some l => l | None => [] end |}.
  cbn zeta. split; [| now repeat split].
  unfold push. rewrite traced_generate_id.
  replace (if truthy_list names
           then match names with Some l => [] ++ l | None => [] end
           else [])
    with (match names with Some l => l | None => [] end)
    by (now destruct names as [[| x l] |]).
  rewrite traced_execute_request. rewrite <- app_assoc. cbn [app].
  destruct (fst (_execute_request _ u SVC_INBOX (snd (_generate_id w))));
    reflexivity.
Qed.

End PushLog.

(** ** The operations of the collection management and discovery services *)

Section ServicesLog.

Context {W : Type} {client : AbstractClient W} {dispatcher : Services.Dispatcher W}.
Variable SubscriptionResponse : Type.
Variable Collection : Type.
Variable to_subscription_response_entity :
  Services.message -> result SubscriptionResponse.
Variable to_collection_entities :
  list Services.tm11_CollectionInformation -> result (list Collection).
Variable pack_content_bindings :
  option (list binding_arg) -> option (list tm11_ContentBinding).

Lemma services_traced_generate_id (tr : list Services.event) (w : W) :
  _generate_id (tr, w)
  = (fst (_generate_id w),
     (tr ++ [Services.EvId (fst (_generate_id w))], snd (_generate_id w))).
Proof. cbn. destruct (_generate_id w); reflexivity. Qed.

Lemma services_traced_execute_request (r : Services.request) (u : option string)
    (service : option service_type) (tr : list Services.event) (w : W) :
  Services._execute_request r u service (tr, w)
  = (fst (Services._execute_request r u service w),
     (tr ++ [Services.EvRequest r u service
               (fst (Services._execute_request r u service w))],
      snd (Services._execute_request r u service w))).
Proof. cbn. destruct (Services._execute_request r u service w); reflexivity. Qed.

Lemma subscription_status_request_one_exchange (act : Services.action)
    (name : string) (sid u : option string) :
  one_exchange
    (Services.__subscription_status_request to_subscription_response_entity
       act name sid u)
    u (Some SVC_COLLECTION_MANAGEMENT)
    (fun m => Services.ReqManageCollectionSubscription
                {| Services.mr_message_id := m;
                   Services.mr_action := act;
                   Services.mr_collection_name := name;
                   Services.mr_subscription_id := sid;
                   Services.mr_subscription_parameters := None;
                   Services.mr_push_parameters := None |})
    to_subscription_response_entity.
Proof.
  split; [reflexivity |]. intros tr w. cbn zeta.
  unfold Services.__subscription_status_request.
  rewrite services_traced_generate_id, services_traced_execute_request.
  rewrite <- app_assoc. cbn [app].
  destruct (fst (Services._execute_request _ u _ (snd (_generate_id w))));
    reflexivity.
Qed.

(** X9.  [get_subscription_status], [pause_subscription],
    [resume_subscription] and [unsubscribe] each make one identifier and one
    exchange with the collection management service at the caller's address.
    The request carries the identifier, the collection name and the
    subscription id as given, no subscription or push parameters, and the
    action of the operation: STATUS, PAUSE, RESUME, UNSUBSCRIBE.  The
    operation raises what the dispatcher raises and otherwise returns the
    conversion of the reply. *)
Theorem subscription_operations_one_exchange (name : string) (sid u : option string) :
  let sends act m :=
    Services.ReqManageCollectionSubscription
      {| Services.mr_message_id := m;
         Services.mr_action := act;
         Services.mr_collection_name := name;
         Services.mr_subscription_id := sid;
         Services.mr_subscription_parameters := None;
         Services.mr_push_parameters := None |} in
  one_exchange
    (Services.get_subscription_status to_subscription_response_entity name sid u)
    u (Some SVC_COLLECTION_MANAGEMENT) (sends Services.ACT_STATUS)
    to_subscription_response_entity /\
  one_exchange
    (Services.pause_subscription to_subscription_response_entity name sid u)
    u (Some SVC_COLLECTION_MANAGEMENT) (sends Services.ACT_PAUSE)
    to_subscription_response_entity /\
  one_exchange
    (Services.resume_subscription to_subscription_response_entity name sid u)
    u (Some SVC_COLLECTION_MANAGEMENT) (sends Services.ACT_RESUME)
    to_subscription_response_entity /\
  one_exchange
    (Services.unsubscribe to_subscription_response_entity name sid u)
    u (Some SVC_COLLECTION_MANAGEMENT) (sends Services.ACT_UNSUBSCRIBE)
    to_subscription_response_entity.
Proof.
  intros sends. repeat split; try apply subscription_status_request_one_exchange.
Qed.

(** X10.  [subscribe] makes one identifier and one exchange with the
    collection management service at the caller's address.  The request has
    action SUBSCRIBE and no subscription id; its subscription parameters
    always state the response type, COUNT_ONLY when asked for and FULL
    otherwise, with the packed content bindings; it has push parameters when
    an inbox service is given, and only then.  The operation raises what
    the dispatcher raises and otherwise returns the conversion of the
    reply. *)
Theorem subscribe_one_exchange (name : string) (count_only : bool)
    (inbox : option InboxService) (bindings : option (list binding_arg))
    (u : option string) :
  one_exchange
    (Services.subscribe to_subscription_response_entity pack_content_bindings
       name count_only inbox bindings u)
    u (Some SVC_COLLECTION_MANAGEMENT)
    (fun m => Services.ReqManageCollectionSubscription
                {| Services.mr_message_id := m;
                   Services.mr_action := Services.ACT_SUBSCRIBE;
                   Services.mr_collection_name := name;
                   Services.mr_subscription_id := None;
                   Services.mr_subscription_parameters :=
                     Some {| Services.sp_response_type :=
                               if count_only then RT_COUNT_ONLY else RT_FULL;
                             Services.sp_content_bindings :=
                               pack_content_bindings bindings |};
                   Services.mr_push_parameters :=
                     match inbox with
                     | Some svc => Some (Services.subscribe_push_parameters svc)
                     | None => None
                     end |})
    to_subscription_response_entity.
Proof.
  split; [reflexivity |]. intros tr w. cbn zeta. unfold Services.subscribe.
  rewrite services_traced_generate_id.
  destruct inbox as [svc |]; cbn [Services.set_push_parameters
    Services.mr_message_id Services.mr_action Services.mr_collection_name
    Services.mr_subscription_id Services.mr_subscription_parameters];
    rewrite services_traced_execute_request; rewrite <- app_assoc; cbn [app];
    destruct (fst (Services._execute_request _ u _ (snd (_generate_id w))));
    reflexivity.
Qed.

(** X11.  [get_collections] and [_discovery_request] each make one
    identifier and one exchange, the request carrying the identifier:
    [get_collections] with the collection management service, and
    [_discovery_request] without naming a service.  [_discovery_request]
    returns the reply as it is.  [get_collections] returns the conversion of
    the collection informations of the reply, and raises AttributeError when
    the reply is not a collection information response, a status message of
    success included. *)
Theorem collections_and_discovery_one_exchange (u : option string) :
  one_exchange (Services.get_collections to_collection_entities u)
    u (Some SVC_COLLECTION_MANAGEMENT) Services.ReqCollectionInformation
    (fun response =>
       match response with
       | Services.MsgCollectionInformationResponse l => to_collection_entities l
       | _ => Raise (AttributeError "collection_informations")
       end) /\
  one_exchange (Services._discovery_request u) u None Services.ReqDiscovery Ok.
Proof.
  split; (split; [reflexivity |]); intros tr w; cbn zeta.
  - unfold Services.get_collections.
    rewrite services_traced_generate_id, services_traced_execute_request.
    rewrite <- app_assoc. cbn [app].
    destruct (fst (Services._execute_request _ u _ (snd (_generate_id w))))
      as [[l | name l | l | st] | e]; reflexivity.
  - unfold Services._discovery_request.
    rewrite services_traced_generate_id, services_traced_execute_request.
    rewrite <- app_assoc. cbn [app].
    destruct (fst (Services._execute_request _ u _ (snd (_generate_id w))));
      reflexivity.
Qed.

End ServicesLog.

(** X12.  [poll] without subscription id and [subscribe] describe an inbox
    service to the server alike: the same protocol, the same address and the
    first message binding of the service; [poll] also allows an asynchronous
    answer.  For a service without message bindings they differ: [poll]
    puts an empty list where [subscribe] puts the empty string. *)
Theorem poll_and_subscribe_describe_inbox
    (pack : option (list binding_arg) -> option (list tm11_ContentBinding))
    (message_id : string) (a : poll_args) (svc : InboxService) :
  truthy_str (subscription_id a) = false ->
  inbox_service a = Some svc ->
  exists p d,
    pr_poll_parameters (poll_request pack message_id a) = Some p /\
    pp_delivery_parameters p = Some d /\
    pp_allow_asynch p = Some true /\
    inbox_protocol d
      = Services.push_inbox_protocol (Services.subscribe_push_parameters svc) /\
    inbox_address d
      = Services.push_inbox_address (Services.subscribe_push_parameters svc) /\
    match message_bindings svc with
    | b :: _ =>
        delivery_message_binding d = FirstBinding b /\
        Services.push_delivery_message_binding
          (Services.subscribe_push_parameters svc) = b
    | [] =>
        delivery_message_binding d = NoBindings /\
        Services.push_delivery_message_binding
          (Services.subscribe_push_parameters svc) = ""
    end.
Proof.
  intros Hfalse Hinbox. unfold poll_request. rewrite Hfalse, Hinbox.
  destruct (count_only a); eexists _, _; cbn;
    (split; [reflexivity |]); (split; [reflexivity |]); (split; [reflexivity |]);
    (split; [reflexivity |]); (split; [reflexivity |]);
    destruct (message_bindings svc); split; reflexivity.
Qed.

Lemma poll_and_subscribe_describe_inbox_witness :
  exists p d,
    pr_poll_parameters
      (poll_request pack_bindings "1"
         {| collection_name := "feed-1"; begin_date := None; end_date := None;
            count_only := false; subscription_id := None;
            inbox_service :=
              Some {| protocol := "urn:http"; address := "https://me/inbox";
                      message_bindings := [] |};
            content_bindings := None; uri := None |}) = Some p /\
    pp_delivery_parameters p = Some d /\
    delivery_message_binding d = NoBindings.
Proof.
  destruct (@poll_and_subscribe_describe_inbox pack_bindings "1"
              {| collection_name := "feed-1"; begin_date := None; end_date := None;
                 count_only := false; subscription_id := None;
                 inbox_service :=
                   Some {| protocol := "urn:http"; address := "https://me/inbox";
                           message_bindings := [] |};
                 content_bindings := None; uri := None |}
              {| protocol := "urn:http"; address := "https://me/inbox";
                 message_bindings := [] |} eq_refl eq_refl)
    as (p & d & Hp & Hd & _ & _ & _ & Hb & _).
  exists p, d. repeat split; assumption.
Defined.

(** ** When the sequence ends *)

Section Ending.

Context {W : Type} {client : AbstractClient W}.
Variable pack_content_bindings :
  option (list binding_arg) -> option (list tm11_ContentBinding).
Variable to_content_block_entity : tm11_ContentBlock -> result ContentBlock.

Lemma poll_while_response (fuel : nat) (cn : string) (u : option string)
    (r : PollResponse) :
  forall (w w' : W) (o : outcome) (g : poll_gen),
  poll_while to_content_block_entity fuel cn u r w = Some (o, g, w') ->
  match o with
  | Yielded _ => response_of g = Some r
  | Raised _ => True
  | StopIteration => more r = false
  end.
Proof.
  induction fuel as [| fuel IH]; intros w w' o g; cbn [poll_while];
    [discriminate |].
  destruct (more r) eqn:Hmore.
  - unfold fulfilment.
    destruct (fulfilment_next to_content_block_entity
                (FulCreated cn (result_id r) (result_part_number r + 1) u) w)
      as [[[blk | e |] g1] w1].
    + intros Hrun. now same_run Hrun.
    + intros Hrun. now same_run Hrun.
    + apply IH.
  - intros Hrun. now same_run Hrun.
Qed.

Lemma poll_next_response (fuel : nat) (g g' : poll_gen) (w w' : W) (o : outcome)
    (r : PollResponse) :
  response_of g = Some r ->
  poll_next pack_content_bindings to_content_block_entity fuel g w = Some (o, g', w') ->
  match o with
  | Yielded _ => response_of g' = Some r
  | Raised _ => True
  | StopIteration => more r = false
  end.
Proof.
  destruct g as [a | cn u r0 rest | cn u r0 inner |]; cbn [response_of];
    try discriminate; intros Hr; injection Hr as ->; cbn [poll_next].
  - destruct rest as [| b rest]; cbn [poll_first].
    + apply poll_while_response.
    + destruct (to_content_block_entity b) as [blk | e]; intros Hrun;
        now same_run Hrun.
  - destruct (fulfilment_next to_content_block_entity inner w)
      as [[[blk | e |] g1] w1].
    + intros Hrun. now same_run Hrun.
    + intros Hrun. now same_run Hrun.
    + apply poll_while_response.
Qed.

Lemma poll_take_exhausted (fuel n : nat) (r : PollResponse) :
  forall (g g' : poll_gen) (w w' : W) (bs : list ContentBlock),
  response_of g = Some r ->
  poll_take pack_content_bindings to_content_block_entity fuel n g w
    = Some (bs, Exhausted, g', w') ->
  more r = false.
Proof.
  induction n as [| n IH]; intros g g' w w' bs Hr; [discriminate |].
  rewrite poll_take_S.
  destruct (poll_next pack_content_bindings to_content_block_entity fuel g w)
    as [[[o g1] w1] |] eqn:Hnext; [| discriminate].
  eapply poll_next_response in Hnext; [| exact Hr].
  destruct o as [blk | e |].
  - destruct (poll_take pack_content_bindings to_content_block_entity fuel n g1 w1)
      as [[[[bs1 fin1] g2] w2] |] eqn:Htake; [| discriminate].
    intros Hrun. same_run Hrun. eapply IH; [exact Hnext | exact Htake].
  - discriminate.
  - intros _. exact Hnext.
Qed.

(** *** Replies to fulfilment requests: only their blocks are read *)

Variable h : PollResponse -> PollResponse.
Hypothesis h_keeps_blocks : forall r, content_blocks (h r) = content_blocks r.

Lemma fulfilment_next_retouched (g : fulfilment_gen) (w : W) :
  fulfilment_next (client := retouched h client) to_content_block_entity g w
  = fulfilment_next (client := client) to_content_block_entity g w.
Proof.
  destruct g as [cn rid pn u | rest |]; [| reflexivity ..].
  cbn [fulfilment_next]. cbn [retouched _generate_id _execute_request].
  destruct (_generate_id w) as [m w1].
  destruct (_execute_request _ u SVC_POLL w1) as [[[r | st] | e] w2];
    cbn [get_content_blocks]; [| reflexivity ..].
  now rewrite h_keeps_blocks.
Qed.

Lemma poll_while_retouched (fuel : nat) (cn : string) (u : option string)
    (r : PollResponse) :
  forall w,
  poll_while (client := retouched h client) to_content_block_entity fuel cn u r w
  = poll_while (client := client) to_content_block_entity fuel cn u r w.
Proof.
  induction fuel as [| fuel IH]; intros w; cbn [poll_while]; [reflexivity |].
  destruct (more r); [| reflexivity]. unfold fulfilment.
  rewrite fulfilment_next_retouched.
  destruct (fulfilment_next to_content_block_entity _ w) as [[[blk | e |] g1] w1];
    [reflexivity | reflexivity | apply IH].
Qed.

Lemma poll_next_retouched (fuel : nat) (g : poll_gen) (w : W) :
  poll_next (client := retouched h client) pack_content_bindings
    to_content_block_entity fuel g w
  = poll_next (client := client) pack_content_bindings
      to_content_block_entity fuel g w.
Proof.
  assert (Hfirst : forall cn u r rest w0,
            poll_first (client := retouched h client) to_content_block_entity
              fuel cn u r rest w0
            = poll_first (client := client) to_content_block_entity
                fuel cn u r rest w0).
  { intros cn u r [| b rest] w0; cbn [poll_first];
      [apply poll_while_retouched | reflexivity]. }
  destruct g as [a | cn u r rest | cn u r inner |]; cbn [poll_next].
  - cbn [retouched _generate_id _execute_request].
    destruct (_generate_id w) as [m w1].
    destruct (_execute_request _ (uri a) SVC_POLL w1) as [[[r | st] | e] w2];
      [apply Hfirst | reflexivity | reflexivity].
  - apply Hfirst.
  - rewrite fulfilment_next_retouched.
    destruct (fulfilment_next to_content_block_entity inner w)
      as [[[blk | e |] g1] w1];
      [reflexivity | reflexivity | apply poll_while_retouched].
  - reflexivity.
Qed.

Lemma poll_take_retouched (fuel n : nat) :
  forall (g : poll_gen) (w : W),
  poll_take (client := retouched h client) pack_content_bindings
    to_content_block_entity fuel n g w
  = poll_take (client := client) pack_content_bindings
      to_content_block_entity fuel n g w.
Proof.
  induction n as [| n IH]; intros g w; [reflexivity |].
  rewrite !poll_take_S, poll_next_retouched.
  destruct (poll_next pack_content_bindings to_content_block_entity fuel g w)
    as [[[[blk | e |] g1] w1] |]; try reflexivity.
  now rewrite IH.
Qed.

(** X5.  The sequence of [poll] comes to its end only in one way: the reply
    to the poll request is a poll response and that response reports nothing
    more.  The replies to the fulfilment requests are read for their blocks
    only: when each of them is replaced by any response with the same
    blocks, whatever its [more] flag, result id and part number, the run is
    the same, block for block, with the same ending, generator and client.
    So it is always the first response that decides whether the sequence
    ends. *)
Theorem poll_ends_by_first_response (fuel n : nat) (a : poll_args) (w : W) :
  let message_id := fst (_generate_id w) in
  let request := ReqPoll (poll_request pack_content_bindings message_id a) in
  let answer := _execute_request request (uri a) SVC_POLL (snd (_generate_id w)) in
  poll_run (client := retouched h client) pack_content_bindings
    to_content_block_entity fuel n a w
  = poll_run (client := client) pack_content_bindings
      to_content_block_entity fuel n a w /\
  forall (bs : list ContentBlock) (g : poll_gen) (w' : W),
    poll_run pack_content_bindings to_content_block_entity fuel n a w
      = Some (bs, Exhausted, g, w') ->
    exists r, fst answer = Ok (MsgPollResponse r) /\ more r = false.
Proof.
  intros message_id request answer. split.
  - unfold poll_run, poll. apply poll_take_retouched.
  - unfold poll_run, poll. intros bs g w'.
    destruct n as [| n]; [discriminate |].
    rewrite poll_take_S. cbn [poll_next].
    destruct (_generate_id w) as [m w1] eqn:Hid.
    subst message_id request answer. cbn [fst snd].
    destruct (_execute_request (ReqPoll (poll_request pack_content_bindings m a))
                (uri a) SVC_POLL w1) as [[[r | st] | e] w2]; cbn [fst];
      try discriminate.
    intros Hrun. exists r. split; [reflexivity |].
    change (poll_first to_content_block_entity fuel (collection_name a) (uri a) r
              (content_blocks r) w2)
      with (poll_next pack_content_bindings to_content_block_entity fuel
              (PollFirst (collection_name a) (uri a) r (content_blocks r)) w2)
      in Hrun.
    rewrite <- poll_take_S in Hrun.
    eapply poll_take_exhausted; [| exact Hrun]. reflexivity.
Qed.

End Ending.

Lemma poll_ends_by_first_response_witness :
  poll_run (client := retouched scramble (Simulation.client Simulation.two_parts))
    pack_bindings convert_block 1 5 (Simulation.feed None None) Simulation.start
  = poll_run (client := Simulation.client Simulation.two_parts)
      pack_bindings convert_block 1 5 (Simulation.feed None None) Simulation.start.
Proof.
  apply (@poll_ends_by_first_response session
           (Simulation.client Simulation.two_parts) pack_bindings convert_block
           scramble (fun r => eq_refl) 1 5 (Simulation.feed None None)
           Simulation.start).
Defined.

(** ** Each part is yielded before the next is asked for *)

Section Parts.

Context {W : Type} {client : AbstractClient W}.
Variable pack_content_bindings :
  option (list binding_arg) -> option (list tm11_ContentBinding).
Variable to_content_block_entity : tm11_ContentBlock -> result ContentBlock.

(** Inside a part, each step yields the block that is next and touches
    nothing else. *)
Lemma poll_take_blocks (fuel k : nat) (cn : string) (u : option string)
    (r : PollResponse) (V : Type) (cl : AbstractClient V) (v : V) :
  forall (pre rest : list tm11_ContentBlock) (es : list ContentBlock),
  map to_content_block_entity pre = map Ok es ->
  k <= List.length es ->
  poll_take (client := cl) pack_content_bindings to_content_block_entity fuel k
    (PollFirst cn u r (pre ++ rest)) v
  = Some (firstn k es, Suspended, PollFirst cn u r (skipn k (pre ++ rest)), v) /\
  poll_take (client := cl) pack_content_bindings to_content_block_entity fuel k
    (PollMore cn u r (FulSuspended (pre ++ rest))) v
  = Some (firstn k es, Suspended,
          PollMore cn u r (FulSuspended (skipn k (pre ++ rest))), v).
Proof.
  induction k as [| k IH]; intros pre rest es Hpre Hk.
  - split; reflexivity.
  - destruct es as [| e es]; [cbn in Hk; lia |].
    destruct pre as [| b pre]; [discriminate |].
    cbn in Hpre. injection Hpre as Hb Hpre. cbn in Hk.
    destruct (IH pre rest es Hpre ltac:(lia)) as [Hfirst Hmore].
    rewrite !poll_take_S. cbn [app poll_next poll_first fulfilment_next
                                fulfilment_blocks skipn firstn].
    rewrite Hb, Hfirst, Hmore. split; reflexivity.
Qed.

(** The loop fetches a part whose first block converts: the step logs the
    identifier and the request, and yields that block. *)
Lemma poll_while_fetches (fuel : nat) (cn : string) (u : option string)
    (r r' : PollResponse) (tr : list event) (w : W)
    (b : tm11_ContentBlock) (rest : list tm11_ContentBlock) (e : ContentBlock) :
  let message_id := fst (_generate_id w) in
  let answer :=
    _execute_request (loop_request cn r message_id) u SVC_POLL (snd (_generate_id w)) in
  more r = true ->
  fst answer = Ok (MsgPollResponse r') ->
  content_blocks r' = b :: rest ->
  to_content_block_entity b = Ok e ->
  poll_while to_content_block_entity (S fuel) cn u r (tr, w)
  = Some (Yielded e, PollMore cn u r (FulSuspended rest),
          (tr ++ [EvId message_id;
                  EvRequest (loop_request cn r message_id) u SVC_POLL (fst answer)],
           snd answer)).
Proof.
  intros message_id answer Hmore Hanswer Hblocks Hb.
  cbn [poll_while]. rewrite Hmore. unfold fulfilment. cbn [fulfilment_next].
  rewrite traced_generate_id. fold message_id.
  change (ReqFulfillment _) with (loop_request cn r message_id).
  rewrite traced_execute_request. fold answer.
  rewrite Hanswer. cbn [get_content_blocks]. rewrite Hblocks.
  cbn [fulfilment_blocks]. rewrite Hb. rewrite <- app_assoc. reflexivity.
Qed.

(** C6.  The generator is where its next step starts by fetching a part:
    it has not started, or it has yielded every block it received and its
    response reports more.  The request [q] of that step is answered by a
    part whose first blocks [pre] convert to [es].  Then a consumer asking
    for [k] blocks, for any [k] from 1 to the number of these blocks, gets
    the first [k] of them, in the order of the reply; the generator is
    suspended with the other blocks of the part left; and the log has grown
    by the identifier and the request [q] alone.  So every block of the
    part is yielded before a request for a further part is sent, also when
    [k] is the number of all blocks, and a consumer that stops there causes
    no further request. *)
Theorem poll_yields_part_before_next_request (fuel k : nat) (g : poll_gen)
    (tr : list event) (w : W) (q : request) (u : option string)
    (r' : PollResponse) (pre rest : list tm11_ContentBlock)
    (es : list ContentBlock) :
  let message_id := fst (_generate_id w) in
  let answer := _execute_request q u SVC_POLL (snd (_generate_id w)) in
  next_request pack_content_bindings g message_id = Some (q, u) ->
  fst answer = Ok (MsgPollResponse r') ->
  content_blocks r' = pre ++ rest ->
  map to_content_block_entity pre = map Ok es ->
  0 < k <= List.length es ->
  poll_take pack_content_bindings to_content_block_entity (S fuel) k g (tr, w)
  = Some (firstn k es, Suspended,
          in_part g r' (skipn k (content_blocks r')),
          (tr ++ [EvId message_id; EvRequest q u SVC_POLL (fst answer)],
           snd answer)).
Proof.
  intros message_id answer Hnext Hanswer Hblocks Hpre [Hk0 Hk].
  destruct k as [| k]; [lia |].
  assert (Hloop : forall cn u0 r,
            more r = true -> q = loop_request cn r message_id -> u = u0 ->
            poll_while to_content_block_entity (S fuel) cn u0 r (tr, w)
            = match pre ++ rest with
              | [] => None
              | b :: blocks =>
                  poll_next pack_content_bindings to_content_block_entity (S fuel)
                    (PollMore cn u0 r (FulSuspended (b :: blocks)))
                    (tr ++ [EvId message_id; EvRequest q u SVC_POLL (fst answer)],
                     snd answer)
              end).
  { intros cn u0 r Hmore -> <-.
    destruct es as [| e es]; [cbn in Hk; lia |].
    destruct pre as [| b pre]; [discriminate |].
    cbn in Hpre. injection Hpre as Hb _. cbn [app].
    erewrite poll_while_fetches; [| exact Hmore | exact Hanswer | exact Hblocks | exact Hb].
    cbn [poll_next fulfilment_next fulfilment_blocks]. now rewrite Hb. }
  assert (Hsome : exists b blocks, pre ++ rest = b :: blocks).
  { destruct es as [| e es]; [cbn in Hk; lia |].
    destruct pre as [| b pre]; [discriminate |]. now exists b, (pre ++ rest). }
  destruct Hsome as (b0 & blocks0 & Hcons).
  rewrite Hblocks.
  destruct g as [a | cn u0 r [| b blocks] | cn u0 r [? ? ? ? | [| b blocks] |] |];
    cbn [next_request] in Hnext; try discriminate.
  - injection Hnext as <- <-.
    rewrite poll_take_S, poll_next_created.
    fold message_id. fold answer. rewrite Hanswer, Hblocks.
    change (poll_first to_content_block_entity (S fuel) (collection_name a) (uri a) r'
              (pre ++ rest)
              (tr ++ [EvId message_id;
                      EvRequest (ReqPoll (poll_request pack_content_bindings message_id a))
                        (uri a) SVC_POLL (Ok (MsgPollResponse r'))], snd answer))
      with (poll_next pack_content_bindings to_content_block_entity (S fuel)
              (PollFirst (collection_name a) (uri a) r' (pre ++ rest))
              (tr ++ [EvId message_id;
                      EvRequest (ReqPoll (poll_request pack_content_bindings message_id a))
                        (uri a) SVC_POLL (Ok (MsgPollResponse r'))], snd answer)).
    rewrite <- poll_take_S. cbn [in_part].
    now apply poll_take_blocks.
  - destruct (more r) eqn:Hmore; [| discriminate]. injection Hnext as <- <-.
    rewrite poll_take_S. cbn [poll_next poll_first].
    rewrite (Hloop cn u0 r Hmore eq_refl eq_refl), Hcons, <- Hcons.
    rewrite <- poll_take_S. cbn [in_part].
    now apply poll_take_blocks.
  - destruct (more r) eqn:Hmore; [| discriminate]. injection Hnext as <- <-.
    rewrite poll_take_S. cbn [poll_next fulfilment_next fulfilment_blocks].
    rewrite (Hloop cn u0 r Hmore eq_refl eq_refl), Hcons, <- Hcons.
    rewrite <- poll_take_S. cbn [in_part].
    now apply poll_take_blocks.
Qed.

End Parts.

Lemma poll_yields_part_before_next_request_witness :
  exists tr w',
    poll_take (client := Traced (Simulation.client Simulation.two_parts))
      pack_bindings convert_block 1 2 (PollCreated (Simulation.feed None None))
      ([], Simulation.start)
    = Some ([Simulation.block "a"; Simulation.block "b"], Suspended,
            PollFirst "feed-1" None Simulation.part1 [], (tr, w')) /\
    List.length (exchanges tr) = 1.
Proof.
  eexists _, _. split.
  - apply (@poll_yields_part_before_next_request session
             (Simulation.client Simulation.two_parts) pack_bindings convert_block
             0 2 (PollCreated (Simulation.feed None None)) [] Simulation.start
             (ReqPoll (poll_request pack_bindings "0" (Simulation.feed None None)))
             None Simulation.part1
             [Simulation.wire "a"; Simulation.wire "b"] []
             [Simulation.block "a"; Simulation.block "b"]).
    + reflexivity.
    + reflexivity.
    + reflexivity.
    + reflexivity.
    + cbn. lia.
  - reflexivity.
Defined.
